(** * print_list: the authentication gate ([lib/auth.js], [lib/api-response.js])

    A shallow embedding of the [Auth] verifier and of the [ApiResponse]
    dispatcher.  JavaScript exceptions are completions, [await] on a promise
    is the completion of the awaited call, and every effect (the credential
    store, the outgoing response, the console) lives in an explicit world
    that is threaded through the code. *)

From Stdlib Require Import Ascii String List NArith.
From stdpp Require Import base option strings gmap pretty.

(** ** JavaScript values, strings and completions *)

Module Js.

(** What a [throw] carries. *)
Inductive Exn : Type :=
| Error (msg : string)
| TypeError (msg : string)
| Raised (what : string).

Inductive Completion (A : Type) : Type :=
| Normal (a : A)
| Throw (e : Exn).
Arguments Normal {A} a.
Arguments Throw {A} e.

(** [s.startsWith(p)] *)
Fixpoint startsWith (p s : string) : bool :=
  match p, s with
  | EmptyString, _ => true
  | String _ _, EmptyString => false
  | String a p', String b s' => if Ascii.eqb a b then startsWith p' s' else false
  end.

Fixpoint drop (n : nat) (s : string) : string :=
  match n, s with
  | O, _ => s
  | S _, EmptyString => EmptyString
  | S n', String _ s' => drop n' s'
  end.

(** [s.replace(p, r)] with a string pattern: only the first occurrence of
    [p] is replaced.  ([r] holds no [$] pattern at the one call site.) *)
Fixpoint replace (p r s : string) : string :=
  if startsWith p s then r +:+ drop (String.length p) s
  else match s with
       | EmptyString => EmptyString
       | String c s' => String c (replace p r s')
       end.

(** Truthiness of a string: only the empty string is falsy. *)
Definition truthy (s : string) : bool :=
  match s with EmptyString => false | String _ _ => true end.

(** [x || null] where [x] is a string or undefined. *)
Definition or_null (x : option string) : option string :=
  match x with
  | Some s => if truthy s then Some s else None
  | None => None
  end.

(** [!!x] where [x] is a string or null. *)
Definition to_boolean (x : option string) : bool :=
  match x with
  | Some s => truthy s
  | None => false
  end.

(** [a === b] between a string and a value that is a string or undefined. *)
Definition strict_eq (a : string) (b : option string) : bool :=
  match b with
  | Some s => String.eqb a s
  | None => false
  end.

End Js.
Export Js.

(** ** The credential store and the world *)

(** A row of [user_cookies]. *)
Record Row : Type := mkRow {
  record_id : string;
  cookie_string : string;
  is_verified : bool
}.

(** What a supabase query resolves to: [{ error, data }]. *)
Record DbResponse : Type := mkDbResponse {
  error : option string;
  data : option (list Row)
}.

(** The two queries the verifier sends. *)
Inductive StoreCall : Type :=
| SelectEqCookie (cookie : string)
| InsertVerified (verified : bool).

(** The store is an external collaborator: a state and the outcome of the two
    awaited queries on it.  [Throw] is a rejected query. *)
Class CredentialStore (S : Type) : Type := {
  run_select : string -> S -> Completion DbResponse * S;
  run_insert : bool -> S -> Completion DbResponse * S
}.

(** What [console.error] receives after its label. *)
Inductive LogArg : Type :=
| LogExn (e : Exn)
| LogDbError (msg : string)
| LogStr (s : string).

(** The outgoing response, as far as this code and its callbacks touch it. *)
Record Response : Type := mkResponse {
  res_headers : gmap string string;
  res_status : option nat;
  res_body : option (list (string * string));
  res_ended : bool
}.

Record World (S : Type) : Type := mkWorld {
  store : S;
  response : Response;
  calls : list StoreCall;
  console : list (string * LogArg)
}.
Arguments mkWorld {S} _ _ _ _.
Arguments store {S} _.
Arguments response {S} _.
Arguments calls {S} _.
Arguments console {S} _.

(** ** The effect monad: a world in, a completion and a world out *)

Definition M (S A : Type) : Type := World S -> Completion A * World S.

Definition ret {S A} (a : A) : M S A := fun w => (Normal a, w).

Definition bind {S A B} (m : M S A) (k : A -> M S B) : M S B :=
  fun w =>
    match m w with
    | (Normal a, w') => k a w'
    | (Throw e, w') => (Throw e, w')
    end.

Definition throw {S A} (e : Exn) : M S A := fun w => (Throw e, w).

Definition lift {S A} (c : Completion A) : M S A := fun w => (c, w).

(** [try { m } catch (error) { h error }]: effects of [m] stay. *)
Definition try_catch {S A} (m : M S A) (h : Exn -> M S A) : M S A :=
  fun w =>
    match m w with
    | (Normal a, w') => (Normal a, w')
    | (Throw e, w') => h e w'
    end.

Notation "'let*' x := m 'in' k" := (bind m (fun x => k))
  (at level 10, x name, m at level 200, k at level 200).
Notation "m ;;; k" := (bind m (fun _ => k))
  (at level 100, right associativity).

Definition console_error {S} (label : string) (arg : LogArg) : M S unit :=
  fun w => (Normal tt,
            mkWorld (store w) (response w) (calls w) (console w ++ [(label, arg)])).

(** [await supabase.from('user_cookies').select().eq('cookie_string', c)] *)
Definition select_eq_cookie {S} {db : CredentialStore S} (c : string) : M S DbResponse :=
  fun w =>
    let '(r, s') := run_select c (store w) in
    (r, mkWorld s' (response w) (calls w ++ [SelectEqCookie c]) (console w)).

(** [await supabase.from('user_cookies').insert({ is_verified: v }).select()] *)
Definition insert_select {S} {db : CredentialStore S} (v : bool) : M S DbResponse :=
  fun w =>
    let '(r, s') := run_insert v (store w) in
    (r, mkWorld s' (response w) (calls w ++ [InsertVerified v]) (console w)).

(** [res.setHeader(name, value)] *)
Definition setHeader {S} (name value : string) : M S unit :=
  fun w =>
    let r := response w in
    (Normal tt,
     mkWorld (store w)
             (mkResponse (<[name := value]> (res_headers r))
                         (res_status r) (res_body r) (res_ended r))
             (calls w) (console w)).

(** ** The process: configuration and the [Buffer] decoder *)

(** [process.env.data_password] (undefined when unset) and
    [Buffer.from(s, 'base64').toString()], which the code calls under a
    [try]; both belong to the runtime, not to this repository. *)
Class Process : Type := {
  env_data_password : option string;
  base64_toString : string -> Completion string
}.

(** ** [lib/auth.js] *)

Module Auth.

(** An Express request, as far as the constructor reads it: [req.headers]
    and [req.cookies] may be missing. *)
Record Request : Type := mkRequest {
  headers : option (gmap string string);
  cookies : option (gmap string string)
}.

(** The constructor's argument: any JavaScript value.  [NotObject b] is a
    value that is null or whose [typeof] is not ['object'], with its
    truthiness [b]. *)
Inductive ReqArg : Type :=
| NotObject (truthy : bool)
| Object (r : Request).

Record t : Type := mkAuth {
  req : Request;
  authHeader : option string;
  sessionCookie : option string
}.

Record Verdict : Type := mkVerdict {
  verified : bool;
  reason : string;
  newCookie : option string
}.

Record CookieCheck : Type := mkCookieCheck {
  found : bool;
  check_verified : bool;
  check_id : option string
}.

Record CookieResult : Type := mkCookieResult {
  success : bool;
  cookie : option string;
  result_id : option string
}.

(** [constructor(req)] *)
Definition new (arg : ReqArg) : Completion t :=
  match arg with
  | NotObject _ => Throw (Error "Auth constructor requires a valid request object")
  | Object r =>
      Normal (mkAuth r
                (or_null (headers r ≫= (.!! "authorization")))
                (or_null (cookies r ≫= (.!! "__Host-session"))))
  end.

Definition hasAuthHeader (a : t) : bool := to_boolean (authHeader a).

Definition hasCookie (a : t) : bool := to_boolean (sessionCookie a).

Section Verifier.
Context {S : Type} {db : CredentialStore S} {proc : Process}.

(** [#authHeaderPasswordMatch()] *)
Definition authHeaderPasswordMatch (a : t) : M S bool :=
  match authHeader a with
  | None => ret false
  | Some h =>
      if negb (startsWith "Basic " h) then ret false
      else
        try_catch
          (let encodedPassword := replace "Basic " "" h in
           let expectedPassword := env_data_password in
           let* decodedPassword := lift (base64_toString encodedPassword) in
           ret (strict_eq decodedPassword expectedPassword))
          (fun e =>
             console_error "Error decoding auth header:" (LogExn e) ;;;
             ret false)
  end.

Definition not_found : CookieCheck := mkCookieCheck false false None.

(** [dbResponse.data.length]: a TypeError when [data] is null. *)
Definition data_length (r : DbResponse) : M S nat :=
  match data r with
  | Some rows => ret (length rows)
  | None => throw (TypeError "Cannot read properties of null (reading 'length')")
  end.

(** [dbResponse.data[0]], then a property read on it: a TypeError when
    [data] is null or the row is undefined. *)
Definition data_first (r : DbResponse) : M S Row :=
  match data r with
  | Some (row :: _) => ret row
  | Some [] => throw (TypeError "Cannot read properties of undefined")
  | None => throw (TypeError "Cannot read properties of null (reading '0')")
  end.

(** [#isCookieVerified()] *)
Definition isCookieVerified (a : t) : M S CookieCheck :=
  match sessionCookie a with
  | None => ret not_found
  | Some c =>
      if negb (truthy c) then ret not_found
      else
        try_catch
          (let* dbResponse := select_eq_cookie c in
           match error dbResponse with
           | Some err =>
               console_error "Database error checking cookie:" (LogDbError err) ;;;
               ret not_found
           | None =>
               let* len := data_length dbResponse in
               if (0 <? len)%nat then
                 let* record := data_first dbResponse in
                 ret (mkCookieCheck true (is_verified record) (Some (record_id record)))
               else ret not_found
           end)
          (fun e =>
             console_error "Unexpected error checking cookie:" (LogExn e) ;;;
             ret not_found)
  end.

Definition no_cookie : CookieResult := mkCookieResult false None None.

(** [#createCookie()] *)
Definition createCookie (a : t) : M S CookieResult :=
  try_catch
    (let* dbResponse := insert_select true in
     match error dbResponse with
     | Some err =>
         console_error "Database error creating cookie:" (LogDbError err) ;;;
         ret no_cookie
     | None =>
         let* record := data_first dbResponse in
         ret (mkCookieResult true (Some (cookie_string record)) (Some (record_id record)))
     end)
    (fun e =>
       console_error "Unexpected error creating cookie:" (LogExn e) ;;;
       ret no_cookie).

(** [isVerified()] *)
Definition isVerified (a : t) : M S Verdict :=
  if hasAuthHeader a then
    if negb (from_option (startsWith "Basic ") false (authHeader a)) then
      ret (mkVerdict false "Invalid Authorization pattern" None)
    else
      let* matched := authHeaderPasswordMatch a in
      if negb matched then
        ret (mkVerdict false "Password does not match" None)
      else
        let* cookieResult := createCookie a in
        ret (mkVerdict true "Authorization header verified"
               (if success cookieResult then cookie cookieResult else None))
  else if negb (hasCookie a) then
    ret (mkVerdict false "No Authorization header or session cookie found" None)
  else
    let* cookieCheck := isCookieVerified a in
    if negb (found cookieCheck) then
      ret (mkVerdict false "Session cookie not found" None)
    else if negb (check_verified cookieCheck) then
      ret (mkVerdict false "Session cookie is not verified" None)
    else
      ret (mkVerdict true "Session cookie verified" None).

End Verifier.

End Auth.

(** ** [lib/api-response.js] *)

Module ApiResponse.

Import Auth.

(** What a callback hands back: a value (or a promise that fulfils), or a
    promise that rejects.  A synchronous [throw] is the callback's
    [Throw] completion. *)
Inductive Returned : Type :=
| Settles
| Rejects (e : Exn).

Section Dispatcher.
Context {S : Type} {db : CredentialStore S} {proc : Process}.

(** The response object [#res] is the world's [response]; a callback
    reads and writes it there. *)
Record t : Type := mkApiResponse {
  req : ReqArg;
  onSuccess : ReqArg -> option string -> M S Returned;
  onError : string -> M S Returned
}.

(** [await p] *)
Definition await (p : M S Returned) : M S unit :=
  let* r := p in
  match r with
  | Settles => ret tt
  | Rejects e => throw e
  end.

(** The template literal of line 43. *)
Definition setCookie (newCookie : string) : string :=
  "__Host-session=" +:+ newCookie +:+ "; Max-Age=" +:+
  pretty (30 * 24 * 60 * 60)%N +:+ "; HttpOnly; Secure; Path=/".

(** Lines 40 to 49: what [send] does with the verdict, inside its [try]. *)
Definition respond (self : t) (authResult : Verdict) : M S Returned :=
  if verified authResult then
    (match newCookie authResult with
     | Some c => if truthy c then setHeader "Set-Cookie" (setCookie c) else ret tt
     | None => ret tt
     end) ;;;
    await (onSuccess self (req self) (newCookie authResult)) ;;;
    ret Settles
  else
    onError self (reason authResult).

(** Lines 37 and 38: computing the verdict. *)
Definition verdict (self : t) : M S Verdict :=
  let* auth := lift (Auth.new (req self)) in
  Auth.isVerified auth.

(** [send()].  The promise of this async function rejects exactly when
    the result is a [Throw].  A [return] of a promise (no [await]) leaves
    the [try] before the promise settles.  The dynamic [import] of line
    34 is taken to succeed. *)
Definition send (self : t) : M S unit :=
  await
    (try_catch
       (let* authResult := verdict self in
        respond self authResult)
       (fun e =>
          console_error "Auth verification error:" (LogExn e) ;;;
          onError self "Internal authentication error")).

End Dispatcher.

End ApiResponse.

(** ** [api/data.js]: the error callback of the one handler *)

Module Data.

(** [res.status(code).json(obj).end()] *)
Definition status_json_end {S} (code : nat) (obj : list (string * string)) : M S unit :=
  fun w =>
    (Normal tt,
     mkWorld (store w)
             (mkResponse (res_headers (response w)) (Some code) (Some obj) true)
             (calls w) (console w)).

(** [handleError(res, reason)] *)
Definition handleError {S} (reason : string) : M S ApiResponse.Returned :=
  console_error "Authorization failed:" (LogStr reason) ;;;
  status_json_end 401 [("error", "Unauthorized"); ("reason", reason)] ;;;
  ret ApiResponse.Settles.

End Data.

(** ** Vocabulary of the specification, over the embedding *)

Module AuthSpec.

Import Auth.

(** What the verifier can learn from a find-by-token answer. *)
Inductive Lookup : Type :=
| LookupFailed
| NoRecord
| Record (row : Row).

(** A rejected query, an [error] field, or an answer without [data] is a
    failed lookup; otherwise the first row of [data] is the record. *)
Definition classify (answer : Completion DbResponse) : Lookup :=
  match answer with
  | Throw _ => LookupFailed
  | Normal (mkDbResponse (Some _) _) => LookupFailed
  | Normal (mkDbResponse None None) => LookupFailed
  | Normal (mkDbResponse None (Some [])) => NoRecord
  | Normal (mkDbResponse None (Some (row :: _))) => Record row
  end.

(** The row a create-record answer confirms, if any. *)
Definition created (answer : Completion DbResponse) : option Row :=
  match answer with
  | Normal (mkDbResponse None (Some (row :: _))) => Some row
  | _ => None
  end.

Section Cases.
Context {S : Type} {db : CredentialStore S} {proc : Process}.

(** The inline credential is the scheme prefix followed by a base64 text
    that decodes to the configured shared secret. *)
Definition credential_matches (h : string) : Prop :=
  exists rest secret,
    h = "Basic " +:+ rest /\
    base64_toString rest = Normal secret /\
    env_data_password = Some secret.

(** Case (a): an inline credential was supplied and matched. *)
Definition case_a (a : Auth.t) : Prop :=
  exists h, authHeader a = Some h /\ credential_matches h.

(** The store answers the lookup of token [c] with a record whose
    verified flag is true. *)
Definition token_valid (c : string) (s : S) : Prop :=
  exists row, classify (fst (run_select c s)) = Record row /\ is_verified row = true.

(** Case (b): no inline credential, a session token, a matching record
    in the store, and its verified flag is true. *)
Definition case_b (a : Auth.t) (s : S) : Prop :=
  authHeader a = None /\
  exists c, sessionCookie a = Some c /\ token_valid c s.

(** The verdict of the token path, by what the lookup yields. *)
Definition token_verdict (l : Lookup) : Verdict :=
  match l with
  | LookupFailed | NoRecord => mkVerdict false "Session cookie not found" None
  | Record row =>
      if is_verified row then mkVerdict true "Session cookie verified" None
      else mkVerdict false "Session cookie is not verified" None
  end.

(** The store is asked to create a record somewhere in [made]. *)
Definition asks_create (made : list StoreCall) : Prop :=
  exists v, In (InsertVerified v) made.

(** [n] verifications of the same request, one after the other. *)
Fixpoint verify_times (n : nat) (a : Auth.t) : M S (list Verdict) :=
  match n with
  | O => ret []
  | Datatypes.S n' =>
      let* v := isVerified a in
      let* vs := verify_times n' a in
      ret (v :: vs)
  end.

End Cases.

(** The fields the constructor leaves are null or truthy. *)
Definition extracted (a : Auth.t) : Prop :=
  (forall h, authHeader a = Some h -> truthy h = true) /\
  (forall c, sessionCookie a = Some c -> truthy c = true).

(** The response with one header set. *)
Definition with_header {S} (name value : string) (w : World S) : World S :=
  mkWorld (store w)
          (mkResponse (<[name := value]> (res_headers (response w)))
                      (res_status (response w)) (res_body (response w))
                      (res_ended (response w)))
          (calls w) (console w).

Definition logged {S} (label : string) (arg : LogArg) (w : World S) : World S :=
  mkWorld (store w) (response w) (calls w) (console w ++ [(label, arg)]).

End AuthSpec.

(** ** A store and a process to run the code on *)

Module Scenario.

Import Auth.

Inductive Health : Type :=
| Up
| Erroring (msg : string)
| Down (e : Exn).

(** A table of rows, its health, and the (id, token) pairs the store will
    hand out to the next inserts. *)
Record Table : Type := mkTable {
  rows : list Row;
  health : Health;
  supply : list (string * string)
}.

Definition table_select (c : string) (s : Table) : Completion DbResponse * Table :=
  match health s with
  | Up => (Normal (mkDbResponse None
                     (Some (filter (fun r => String.eqb (cookie_string r) c) (rows s)))), s)
  | Erroring msg => (Normal (mkDbResponse (Some msg) None), s)
  | Down e => (Throw e, s)
  end.

Definition table_insert (v : bool) (s : Table) : Completion DbResponse * Table :=
  match health s with
  | Up =>
      match supply s with
      | (id, tok) :: more =>
          let row := mkRow id tok v in
          (Normal (mkDbResponse None (Some [row])),
           mkTable (rows s ++ [row]) Up more)
      | [] => (Normal (mkDbResponse None (Some [])), s)
      end
  | Erroring msg => (Normal (mkDbResponse (Some msg) None), s)
  | Down e => (Throw e, s)
  end.

#[export] Instance table_store : CredentialStore Table :=
  {| run_select := table_select; run_insert := table_insert |}.

(** Base64 over the standard and the URL-safe alphabet; a character outside
    them is skipped and ['='] ends the text. *)
Definition unbase64 (c : ascii) : option N :=
  let n := N_of_ascii c in
  if ((65 <=? n) && (n <=? 90))%N then Some (n - 65)%N
  else if ((97 <=? n) && (n <=? 122))%N then Some (n - 71)%N
  else if ((48 <=? n) && (n <=? 57))%N then Some (n + 4)%N
  else if ((n =? 43) || (n =? 45))%N then Some 62%N
  else if ((n =? 47) || (n =? 95))%N then Some 63%N
  else None.

Fixpoint sextets (s : string) : list N :=
  match s with
  | EmptyString => []
  | String c s' =>
      if Ascii.eqb c "=" then []
      else match unbase64 c with
           | Some n => n :: sextets s'
           | None => sextets s'
           end
  end.

Fixpoint octets (l : list N) : list N :=
  match l with
  | a :: b :: c :: d :: more =>
      (a * 4 + b / 16)%N :: ((b mod 16) * 16 + c / 4)%N :: ((c mod 4) * 64 + d)%N
        :: octets more
  | [a; b; c] => [(a * 4 + b / 16)%N; ((b mod 16) * 16 + c / 4)%N]
  | [a; b] => [(a * 4 + b / 16)%N]
  | _ => []
  end.

Definition base64_decode (s : string) : string :=
  string_of_list_ascii (map ascii_of_N (octets (sextets s))).

(** The configured secret is [correct-secret]; decoding never throws. *)
#[export] Instance process : Process :=
  {| env_data_password := Some "correct-secret";
     base64_toString := fun s => Normal (base64_decode s) |}.

(** The same decoder with no secret configured. *)
Definition process_unset : Process :=
  {| env_data_password := None;
     base64_toString := fun s => Normal (base64_decode s) |}.

(** A decoder that throws on every input. *)
Definition process_throwing : Process :=
  {| env_data_password := Some "correct-secret";
     base64_toString := fun _ => Throw (TypeError "invalid base64") |}.

Definition request (authorization session : option string) : Request :=
  mkRequest
    (Some (from_option (fun h => {[ "authorization" := h ]}) ∅ authorization))
    (Some (from_option (fun c => {[ "__Host-session" := c ]}) ∅ session)).

Definition blank : Response := mkResponse ∅ None None false.

Definition world (s : Table) : World Table := mkWorld s blank [] [].

Definition abc123 : Row := mkRow "7" "abc123" true.
Definition pending : Row := mkRow "8" "def456" false.

Definition table : Table := mkTable [abc123; pending] Up [("9", "tok-9")].

(** A success callback that ends the response with status 200. *)
Definition sendOk (_ : ReqArg) (_ : option string) : M Table ApiResponse.Returned :=
  Data.status_json_end 200 [] ;;;
  ret ApiResponse.Settles.

Definition dispatcher (r : ReqArg) : ApiResponse.t :=
  ApiResponse.mkApiResponse r sendOk Data.handleError.

(** An error callback that throws. *)
Definition failing (r : ReqArg) : ApiResponse.t :=
  ApiResponse.mkApiResponse r sendOk (fun _ => throw (Error "response already sent")).

(** The requests of the scenarios, and what the constructor makes of them. *)
Definition with_cookie : Request := request None (Some "abc123").
Definition cookie_auth : Auth.t := mkAuth with_cookie None (Some "abc123").

Definition with_secret : Request := request (Some "Basic Y29ycmVjdC1zZWNyZXQ=") None.
Definition secret_auth : Auth.t :=
  mkAuth with_secret (Some "Basic Y29ycmVjdC1zZWNyZXQ=") None.

Definition with_wrong : Request := request (Some "Basic d3Jvbmc=") None.
Definition wrong_auth : Auth.t := mkAuth with_wrong (Some "Basic d3Jvbmc=") None.

Definition with_bearer : Request := request (Some "Bearer abc123") (Some "abc123").
Definition bearer_auth : Auth.t :=
  mkAuth with_bearer (Some "Bearer abc123") (Some "abc123").

Definition anonymous : Request := request None None.

(** A store that answers every query with an error. *)
Definition erroring : Table := mkTable [] (Erroring "connection refused") [].

(** A store whose next token is the empty string. *)
Definition minting_empty : Table := mkTable [] Up [("9", "")].

End Scenario.

(** ** More of the JavaScript strings *)

Module JsText.

(** White space and line terminators among the code units below 256:
    TAB, LF, VT, FF, CR, SP and NBSP. *)
Definition is_space (c : ascii) : bool :=
  let n := N_of_ascii c in
  (((9 <=? n) && (n <=? 13)) || (n =? 32) || (n =? 160))%N.

Fixpoint trimStart (s : string) : string :=
  match s with
  | EmptyString => EmptyString
  | String c s' => if is_space c then trimStart s' else s
  end.

Fixpoint trimEnd (s : string) : string :=
  match s with
  | EmptyString => EmptyString
  | String c s' =>
      match trimEnd s' with
      | EmptyString => if is_space c then EmptyString else String c EmptyString
      | t => String c t
      end
  end.

(** [s.trim()] *)
Definition trim (s : string) : string := trimEnd (trimStart s).

(** Every code unit of the string is white space. *)
Fixpoint blank (s : string) : bool :=
  match s with
  | EmptyString => true
  | String c s' => is_space c && blank s'
  end.

(** The string an exception turns into under ['...' + error]: an error
    object prints its name and its message, any other thrown value itself. *)
Definition error_toString (name msg : string) : string :=
  if negb (truthy msg) then name else name +:+ ": " +:+ msg.

Definition exn_toString (e : Exn) : string :=
  match e with
  | Error msg => error_toString "Error" msg
  | TypeError msg => error_toString "TypeError" msg
  | Raised what => what
  end.

(** The double quote character. *)
Definition dquote : string :=
  String (Ascii false true false false false true false false) EmptyString.

End JsText.

(** ** The cookie functions of [lib/api-response.js], lines 58 to 113 *)

Module Result.

Record t : Type := mk {
  success : bool;
  id : option string;
  verified : option bool;
  message : string;
  error : bool
}.

End Result.

Module Cookies.

Import JsText.

(** [returnHandler(success, id, verified, message = '', error)]: an
    undefined [message] takes the default. *)
Definition returnHandler (success : bool) (id : option string) (verified : option bool)
    (message : option string) (error : bool) : Result.t :=
  Result.mk success id verified (default EmptyString message) error.

(** The argument of [createCookie]: undefined, a boolean, or anything else. *)
Inductive VerifiedArg : Type :=
| Undefined
| Boolean (b : bool)
| NotBoolean.

(** The default parameter [verified = false], then [typeof verified]:
    the boolean at hand, if there is one. *)
Definition boolean_of (arg : VerifiedArg) : option bool :=
  match arg with
  | Undefined => Some false
  | Boolean b => Some b
  | NotBoolean => None
  end.

(** What [checkCookieState] makes of the answer to its lookup. *)
Definition state_of (answer : Completion DbResponse) : Result.t :=
  match answer with
  | Throw e =>
      Result.mk false None None
        ("unexpected error fetching the database: " +:+ exn_toString e) true
  | Normal (mkDbResponse (Some err) _) =>
      Result.mk false None None ("internal error fetching the database: " +:+ err) true
  | Normal (mkDbResponse None None) =>
      Result.mk false None None
        ("unexpected error fetching the database: " +:+
         exn_toString (TypeError "Cannot read properties of null (reading 'length')")) true
  | Normal (mkDbResponse None (Some [])) =>
      Result.mk false None None "cookie not found" false
  | Normal (mkDbResponse None (Some (row :: _))) =>
      Result.mk true (Some (record_id row)) (Some (is_verified row)) EmptyString false
  end.

(** What [createCookie] answers to an argument that is not a boolean. *)
Definition refused : Result.t :=
  Result.mk false None None
    ("the " +:+ dquote +:+ "verified" +:+ dquote +:+ " parameter must be a boolean") true.

Section Functions.
Context {S : Type} {db : CredentialStore S}.

(** [checkCookieState(cookie)]; [None] is a null or undefined argument. *)
Definition checkCookieState (cookie : option string) : M S Result.t :=
  match cookie with
  | None => ret (returnHandler false None None (Some "cookie argument is required") true)
  | Some c =>
      if negb (truthy c) || (String.length (trim c) =? 0)%nat then
        ret (returnHandler false None None (Some "cookie argument is required") true)
      else
        try_catch
          (let* dbResponse := select_eq_cookie c in
           match error dbResponse with
           | Some err =>
               console_error "Database error fetching cookie:" (LogDbError err) ;;;
               ret (returnHandler false None None
                      (Some ("internal error fetching the database: " +:+ err)) true)
           | None =>
               let* len := Auth.data_length dbResponse in
               if (0 <? len)%nat then
                 let* record := Auth.data_first dbResponse in
                 ret (returnHandler true (Some (record_id record))
                        (Some (is_verified record)) (Some EmptyString) false)
               else
                 ret (returnHandler false None None (Some "cookie not found") false)
           end)
          (fun e =>
             console_error "Unexpected error checking cookie:" (LogExn e) ;;;
             ret (returnHandler false None None
                    (Some ("unexpected error fetching the database: " +:+ exn_toString e))
                    true))
  end.

(** [createCookie(verified = false)] *)
Definition createCookie (arg : VerifiedArg) : M S Result.t :=
  match boolean_of arg with
  | None =>
      ret (returnHandler false None None
             (Some ("the " +:+ dquote +:+ "verified" +:+ dquote +:+
                    " parameter must be a boolean")) true)
  | Some verified =>
      try_catch
        (let* dbResponse := insert_select verified in
         match error dbResponse with
         | Some err =>
             console_error "Database error creating cookie:" (LogDbError err) ;;;
             ret (returnHandler false None None
                    (Some ("internal error fetching the database: " +:+ err)) true)
         | None =>
             let* record := Auth.data_first dbResponse in
             ret (returnHandler true (Some (record_id record))
                    (Some (is_verified record)) (Some (cookie_string record)) false)
         end)
        (fun e =>
           console_error "Unexpected error creating cookie:" (LogExn e) ;;;
           ret (returnHandler false None None
                  (Some ("unexpected error fetching the database: " +:+ exn_toString e))
                  true))
  end.

End Functions.

End Cookies.

(** ** The constructor of [ApiResponse] *)

Module Dispatch.

Import Auth ApiResponse.

(** [!!req] for the request argument: an object is truthy. *)
Definition req_truthy (req : ReqArg) : bool :=
  match req with
  | NotObject b => b
  | Object _ => true
  end.

(** [constructor(req, res, onSuccess, onError)].  [res] is the truthiness
    of the response argument, and a callback is [None] when the argument is
    not a function. *)
Definition new {S : Type} (req : ReqArg) (res : bool)
    (onSuccess : option (ReqArg -> option string -> M S Returned))
    (onError : option (string -> M S Returned)) : Completion (ApiResponse.t (S := S)) :=
  match req_truthy req, res, onSuccess, onError with
  | true, true, Some s, Some e => Normal (mkApiResponse req s e)
  | _, _, _, _ =>
      Throw (Error "ApiResponse requires req, res objects and onSuccess, onError callbacks")
  end.

End Dispatch.

(** ** [api/data.js]: the inventory query *)

Module Inventory.

Import Auth.

#[warnings="-register-all"]
Inductive Json : Type :=
| JNull
| JBool (b : bool)
| JNumber (text : string)
| JString (s : string)
| JArray (items : list Json)
| JObject (fields : gmap string Json).

(** What [supabase.rpc] resolves to. *)
Record RpcResponse : Type := mkRpcResponse {
  rpc_error : option string;
  rpc_data : option Json
}.

(** What the function takes from outside this repository: [JSON.parse],
    the [query] member of a request (undefined when missing, its values
    strings), and the stored procedure [get_nested_inventory] called with
    [target_ids]. *)
Class Runtime (S : Type) : Type := {
  JSON_parse : string -> Completion Json;
  query : Request -> option (gmap string string);
  run_rpc : list (option Json) -> S -> Completion RpcResponse * S
}.

(** [item.id]: a TypeError on null, undefined on a value without the
    property. *)
Definition item_id (item : Json) : Completion (option Json) :=
  match item with
  | JNull => Throw (TypeError "Cannot read properties of null (reading 'id')")
  | JObject fields => Normal (fields !! "id")
  | _ => Normal None
  end.

(** The id of an item that is not null. *)
Definition id_of (item : Json) : option Json :=
  match item with
  | JObject fields => fields !! "id"
  | _ => None
  end.

(** [items.map(item => item.id)] on an array. *)
Fixpoint map_id (items : list Json) : Completion (list (option Json)) :=
  match items with
  | [] => Normal []
  | item :: more =>
      match item_id item with
      | Throw e => Throw e
      | Normal i =>
          match map_id more with
          | Throw e => Throw e
          | Normal ids => Normal (i :: ids)
          end
      end
  end.

(** [itemsQuery.map(item => item.id)]: only an array has [map]. *)
Definition items_map_id (itemsQuery : Json) : Completion (list (option Json)) :=
  match itemsQuery with
  | JArray items => map_id items
  | JNull => Throw (TypeError "Cannot read properties of null (reading 'map')")
  | _ => Throw (TypeError "itemsQuery.map is not a function")
  end.

Section Functions.
Context {S : Type} {rt : Runtime S}.

(** [req.query.items] *)
Definition query_items (req : ReqArg) : Completion (option string) :=
  match req with
  | NotObject _ => Throw (TypeError "Cannot read properties of undefined (reading 'items')")
  | Object r =>
      match query r with
      | Some q => Normal (q !! "items")
      | None => Throw (TypeError "Cannot read properties of undefined (reading 'items')")
      end
  end.

(** [await supabase.rpc('get_nested_inventory', { target_ids })]; the list of
    calls in the world records the cookie queries only. *)
Definition rpc_get_nested_inventory (target_ids : list (option Json)) : M S RpcResponse :=
  fun w =>
    let '(r, s') := run_rpc target_ids (store w) in
    (r, mkWorld s' (response w) (calls w) (console w)).

(** [getInventoryData(req)] *)
Definition getInventoryData (req : ReqArg) : M S RpcResponse :=
  let* itemsQuery := lift (query_items req) in
  let* targetIds :=
    (if to_boolean itemsQuery then
       try_catch
         (let* parsed := lift (JSON_parse (default EmptyString itemsQuery)) in
          lift (items_map_id parsed))
         (fun e =>
            console_error "Invalid items query format:" (LogExn e) ;;;
            ret [])
     else ret []) in
  rpc_get_nested_inventory targetIds.

End Functions.

End Inventory.

(** ** More scenarios *)

Module Fixtures.

Import Auth Scenario Inventory.

(** The request whose cookie is a single space, as the constructor keeps it. *)
Definition with_space : Request := request None (Some " ").
Definition space_auth : Auth.t := mkAuth with_space None (Some " ").

(** A valid cookie next to a credential that encodes [wrong]. *)
Definition with_both : Request := request (Some "Basic d3Jvbmc=") (Some "abc123").
Definition both_auth : Auth.t := mkAuth with_both (Some "Basic d3Jvbmc=") (Some "abc123").

(** The row the scenario table mints, and the table afterwards. *)
Definition tok9 : Row := mkRow "9" "tok-9" true.
Definition minted : Table := mkTable [abc123; pending; tok9] Up [].
Definition with_tok9 : Request := request None (Some "tok-9").

(** A success callback that throws. *)
Definition throwing (_ : ReqArg) (_ : option string) : M Table ApiResponse.Returned :=
  throw (Error "inventory unavailable").

(** [JSON.parse] on the texts of the scenarios, a query that holds [items],
    and a stored procedure that answers with the ids it was given. *)
Definition parse_known (text : string) : Completion Json :=
  if String.eqb text "[1,{}]" then Normal (JArray [JNumber "1"; JObject ∅])
  else if String.eqb text "[1,null]" then Normal (JArray [JNumber "1"; JNull])
  else Throw (Raised "SyntaxError: Unexpected token").

Definition echo (ids : list (option Json)) (s : Table) : Completion RpcResponse * Table :=
  (Normal (mkRpcResponse None (Some (JArray (map (default JNull) ids)))), s).

Definition items_query (text : string) : Runtime Table :=
  {| JSON_parse := parse_known;
     query := fun _ => Some {[ "items" := text ]};
     run_rpc := echo |}.

End Fixtures.

(** ** Facts about the string operations *)

Module JsFacts.

Lemma append_cons (c : ascii) (p r : string) :
  String c p +:+ r = String c (p +:+ r).
Proof. reflexivity. Qed.

Lemma startsWith_append (p r : string) : startsWith p (p +:+ r) = true.
Proof.
  induction p as [|c p IH]; [reflexivity|].
  rewrite append_cons. cbn [startsWith].
  now rewrite Ascii.eqb_refl.
Qed.

Lemma startsWith_inv (p s : string) :
  startsWith p s = true -> s = p +:+ drop (String.length p) s.
Proof.
  revert s. induction p as [|c p IH]; intros s Hs; [reflexivity|].
  destruct s as [|d s]; [discriminate|].
  cbn [startsWith] in Hs.
  destruct (Ascii.eqb c d) eqn:Hcd; [|discriminate].
  apply Ascii.eqb_eq in Hcd. subst d.
  rewrite append_cons. cbn [String.length drop].
  f_equal. now apply IH.
Qed.

Lemma drop_append (p r : string) : drop (String.length p) (p +:+ r) = r.
Proof. induction p as [|c p IH]; [reflexivity|]. now rewrite append_cons. Qed.

(** Replacing a prefix by the empty string drops it. *)
Lemma replace_prefix (p s : string) :
  startsWith p s = true -> replace p "" s = drop (String.length p) s.
Proof. intros Hs. destruct s; cbn [replace]; now rewrite Hs. Qed.

Lemma replace_scheme (rest : string) : replace "Basic " "" ("Basic " +:+ rest) = rest.
Proof.
  rewrite replace_prefix by apply startsWith_append.
  apply drop_append.
Qed.

Lemma startsWith_truthy (c : ascii) (p s : string) :
  startsWith (String c p) s = true -> truthy s = true.
Proof. now destruct s. Qed.

Lemma truthy_nonempty (s : string) : truthy s = true <-> s <> "".
Proof. destruct s; cbn; split; congruence. Qed.

Lemma or_null_Some (x : option string) (s : string) :
  or_null x = Some s <-> x = Some s /\ truthy s = true.
Proof.
  unfold or_null. destruct x as [t|]; [|split; [discriminate|intros [? _]; discriminate]].
  destruct (truthy t) eqn:Ht; split.
  - intros [= ->]. now split.
  - now intros [-> _].
  - discriminate.
  - intros [[= ->] Hs]. congruence.
Qed.

Lemma or_null_None (x : option string) :
  or_null x = None <-> x = None \/ x = Some "".
Proof.
  unfold or_null. destruct x as [[|c t]|]; cbn; split; auto; try discriminate.
  intros [?|?]; discriminate.
Qed.

Lemma strict_eq_true (a : string) (b : option string) :
  strict_eq a b = true <-> b = Some a.
Proof.
  unfold strict_eq. destruct b as [s|]; [|split; discriminate].
  rewrite String.eqb_eq. split; [now intros ->|now intros [= ->]].
Qed.

End JsFacts.

(** ** The private methods of [Auth], one run at a time *)

Module AuthFacts.

Import Auth AuthSpec JsFacts.

Lemma new_extracted (r : Request) (a : Auth.t) :
  Auth.new (Object r) = Normal a -> extracted a.
Proof.
  intros [= <-]. split; cbn; intros s Hs; now apply or_null_Some in Hs.
Qed.

Section VerifierRuns.
Context {S : Type} {db : CredentialStore S} {proc : Process}.

Lemma case_a_scheme (a : Auth.t) (h : string) :
  authHeader a = Some h -> case_a a -> startsWith "Basic " h = true.
Proof.
  intros Hh (h' & Hh' & rest & secret & -> & _). rewrite Hh in Hh'.
  injection Hh' as ->. apply startsWith_append.
Qed.

(** The password check returns, touches nothing but the console, and
    says yes exactly in case (a). *)
Lemma authHeaderPasswordMatch_run (a : Auth.t) (w : World S) :
  exists b w',
    authHeaderPasswordMatch a w = (Normal b, w') /\
    store w' = store w /\ calls w' = calls w /\ response w' = response w /\
    (b = true <-> case_a a).
Proof.
  unfold authHeaderPasswordMatch.
  destruct (authHeader a) as [h|] eqn:Hh.
  2:{ exists false, w. repeat split; try discriminate.
      intros (h & Hh' & _). unfold case_a in *. congruence. }
  destruct (startsWith "Basic " h) eqn:Hp; cbn [negb].
  2:{ exists false, w. repeat split; try discriminate.
      intros Ha. apply (case_a_scheme a h Hh) in Ha. congruence. }
  pose proof (startsWith_inv _ _ Hp) as Hrest.
  set (rest := drop (String.length "Basic ") h) in *.
  rewrite (replace_prefix _ _ Hp). fold rest.
  unfold try_catch, bind, lift, ret, console_error.
  destruct (base64_toString rest) as [d|e] eqn:Hd.
  - exists (strict_eq d env_data_password), w. repeat split.
    + intros Heq%strict_eq_true. exists h. split; [exact Hh|].
      exists rest, d. auto.
    + intros (h' & Hh' & rest' & secret & Hh2 & Hd' & Hs).
      rewrite Hh in Hh'. injection Hh' as <-.
      rewrite Hh2 in Hrest. apply String.app_inj in Hrest. subst rest'.
      rewrite Hd in Hd'. injection Hd' as <-. now apply strict_eq_true.
  - eexists false, _. repeat split; try discriminate.
    intros (h' & Hh' & rest' & secret & Hh2 & Hd' & Hs).
    rewrite Hh in Hh'. injection Hh' as <-.
    rewrite Hh2 in Hrest. apply String.app_inj in Hrest. subst rest'.
    congruence.
Qed.

(** [#createCookie()] never throws; it sends one insert and succeeds
    exactly when the answer confirms a row. *)
Lemma createCookie_run (a : Auth.t) (w : World S) :
  exists w',
    createCookie a w =
      (Normal (match created (fst (run_insert true (store w))) with
               | Some row => mkCookieResult true (Some (cookie_string row))
                               (Some (record_id row))
               | None => no_cookie
               end), w') /\
    store w' = snd (run_insert true (store w)) /\
    calls w' = calls w ++ [InsertVerified true] /\
    response w' = response w.
Proof.
  unfold createCookie, try_catch, bind, insert_select, data_first, console_error, ret, throw.
  destruct (run_insert true (store w)) as [[[[err|] [[|row rows]|]]|e] s'];
    cbn; eexists; repeat split.
Qed.

(** [#isCookieVerified()] never throws; with a token it sends one
    lookup and reports what the answer holds. *)
Lemma isCookieVerified_run (a : Auth.t) (c : string) (w : World S) :
  sessionCookie a = Some c -> truthy c = true ->
  exists w',
    isCookieVerified a w =
      (Normal (match classify (fst (run_select c (store w))) with
               | Record row => mkCookieCheck true (is_verified row)
                                 (Some (record_id row))
               | _ => not_found
               end), w') /\
    store w' = snd (run_select c (store w)) /\
    calls w' = calls w ++ [SelectEqCookie c] /\
    response w' = response w.
Proof.
  intros Hc Ht.
  unfold isCookieVerified. rewrite Hc, Ht. cbn [negb].
  unfold try_catch, bind, select_eq_cookie, data_length, data_first, console_error,
    ret, throw.
  destruct (run_select c (store w)) as [[[[err|] [[|row rows]|]]|e] s'];
    cbn; eexists; repeat split.
Qed.

(** *** [isVerified()], path by path *)

Lemma isVerified_invalid (a : Auth.t) (h : string) (w : World S) :
  authHeader a = Some h -> truthy h = true -> startsWith "Basic " h = false ->
  isVerified a w = (Normal (mkVerdict false "Invalid Authorization pattern" None), w).
Proof.
  intros Hh Ht Hp. unfold isVerified, hasAuthHeader.
  rewrite Hh. cbn [to_boolean from_option]. now rewrite Ht, Hp.
Qed.

Lemma isVerified_credential (a : Auth.t) (h : string) (w : World S) :
  authHeader a = Some h -> startsWith "Basic " h = true ->
  exists v w',
    isVerified a w = (Normal v, w') /\ response w' = response w /\
    ((case_a a /\
      v = mkVerdict true "Authorization header verified"
            (cookie_string <$> created (fst (run_insert true (store w)))) /\
      calls w' = calls w ++ [InsertVerified true] /\
      store w' = snd (run_insert true (store w)))
     \/
     (~ case_a a /\
      v = mkVerdict false "Password does not match" None /\
      calls w' = calls w /\ store w' = store w)).
Proof.
  intros Hh Hp. unfold isVerified, hasAuthHeader.
  rewrite Hh. cbn [to_boolean from_option].
  rewrite (startsWith_truthy _ _ _ Hp), Hp. cbn [negb].
  destruct (authHeaderPasswordMatch_run a w) as (b & w1 & Hrun & Hs1 & Hc1 & Hr1 & Hb).
  unfold bind at 1. rewrite Hrun.
  destruct b; cbn [negb].
  - destruct (createCookie_run a w1) as (w2 & Hrun2 & Hs2 & Hc2 & Hr2).
    unfold bind, ret. rewrite Hrun2, Hs1 in *.
    eexists _, w2. split; [reflexivity|]. split; [congruence|]. left.
    split; [now apply Hb|]. split; [|split; congruence].
    now destruct (created (fst (run_insert true (store w)))).
  - exists (mkVerdict false "Password does not match" None), w1.
    split; [reflexivity|]. split; [exact Hr1|]. right.
    split; [|auto]. intros Ha. apply Hb in Ha. discriminate.
Qed.

Lemma isVerified_token (a : Auth.t) (c : string) (w : World S) :
  authHeader a = None -> sessionCookie a = Some c -> truthy c = true ->
  exists w',
    isVerified a w =
      (Normal (token_verdict (classify (fst (run_select c (store w))))), w') /\
    store w' = snd (run_select c (store w)) /\
    calls w' = calls w ++ [SelectEqCookie c] /\
    response w' = response w.
Proof.
  intros Hh Hc Ht. unfold isVerified, hasAuthHeader, hasCookie.
  rewrite Hh, Hc. cbn [to_boolean]. rewrite Ht. cbn [negb].
  destruct (isCookieVerified_run a c w Hc Ht) as (w1 & Hrun & Hs1 & Hc1 & Hr1).
  unfold bind. rewrite Hrun. exists w1. split; [|auto].
  destruct (classify (fst (run_select c (store w)))) as [| |row]; try reflexivity.
  cbn. now destruct (is_verified row).
Qed.

Lemma isVerified_nothing (a : Auth.t) (w : World S) :
  authHeader a = None -> sessionCookie a = None ->
  isVerified a w =
    (Normal (mkVerdict false "No Authorization header or session cookie found" None), w).
Proof.
  intros Hh Hc. unfold isVerified, hasAuthHeader, hasCookie. now rewrite Hh, Hc.
Qed.

(** The calls one verification adds, and its verdict, for every
    extracted credential pair. *)
Lemma isVerified_run (a : Auth.t) (w : World S) :
  extracted a ->
  exists v w' made,
    isVerified a w = (Normal v, w') /\ calls w' = calls w ++ made /\
    response w' = response w /\
    (asks_create made <-> case_a a) /\
    (verified v = true <-> case_a a \/ case_b a (store w)).
Proof.
  intros [Hth Htc].
  assert (Hnil : ~ asks_create []) by (intros [b []]).
  destruct (authHeader a) as [h|] eqn:Hh.
  - assert (Hnb : ~ case_b a (store w)) by (intros [Hn _]; congruence).
    destruct (startsWith "Basic " h) eqn:Hp.
    + destruct (isVerified_credential a h w Hh Hp)
        as (v & w' & Hrun & Hr & [(Ha & -> & Hc & _)|(Hna & -> & Hc & _)]).
      * eexists _, w', [InsertVerified true].
        split; [exact Hrun|]. split; [exact Hc|]. split; [exact Hr|].
        split; split; auto. intros _. exists true. now left.
      * eexists _, w', [].
        split; [exact Hrun|]. rewrite app_nil_r. split; [exact Hc|].
        split; [exact Hr|]. cbn. split; split; try tauto. discriminate.
    + assert (Hna : ~ case_a a).
      { intros Ha. apply (case_a_scheme a h Hh) in Ha. congruence. }
      eexists _, w, [].
      split; [exact (isVerified_invalid a h w Hh (Hth h eq_refl) Hp)|].
      rewrite app_nil_r. cbn. repeat split; try tauto. discriminate.
  - assert (Hna : ~ case_a a) by (intros (h & Hh' & _); congruence).
    destruct (sessionCookie a) as [c|] eqn:Hc.
    + destruct (isVerified_token a c w Hh Hc (Htc c eq_refl))
        as (w' & Hrun & _ & Hcalls & Hr).
      eexists _, w', [SelectEqCookie c].
      split; [exact Hrun|]. split; [exact Hcalls|]. split; [exact Hr|].
      split; split; try tauto.
      * intros [b [Hin|[]]]. discriminate.
      * intros Hv. right. split; [exact Hh|]. exists c. split; [exact Hc|].
        destruct (classify (fst (run_select c (store w)))) as [| |row] eqn:Hcl;
          try discriminate.
        exists row. split; [exact Hcl|]. cbn in Hv. now destruct (is_verified row).
      * intros [Ha|(_ & c' & Hc' & row & Hcl & Hrow)]; [tauto|].
        rewrite Hc in Hc'. injection Hc' as <-.
        rewrite Hcl. cbn. now rewrite Hrow.
    + eexists _, w, [].
      split; [exact (isVerified_nothing a w Hh Hc)|].
      rewrite app_nil_r. cbn. repeat split; try tauto; try discriminate.
      intros [Ha|(_ & c & Hc' & _)]; [tauto|congruence].
Qed.

(** Repeating a token verification while the token stays valid. *)
Lemma verify_times_valid (a : Auth.t) (c : string) (n : nat) :
  authHeader a = None -> sessionCookie a = Some c -> truthy c = true ->
  (forall s, token_valid c s -> token_valid c (snd (run_select c s))) ->
  forall w, token_valid c (store w) ->
    exists wn,
      verify_times n a w =
        (Normal (repeat (mkVerdict true "Session cookie verified" None) n), wn) /\
      calls wn = calls w ++ repeat (SelectEqCookie c) n.
Proof.
  intros Hh Hc Ht Hstable. induction n as [|n IH]; intros w Hvalid.
  - exists w. split; [reflexivity|]. cbn. now rewrite app_nil_r.
  - destruct (isVerified_token a c w Hh Hc Ht) as (w1 & Hrun & Hs1 & Hc1 & _).
    destruct (IH w1) as (wn & Hrunn & Hcn).
    { rewrite Hs1. now apply Hstable. }
    exists wn. split.
    + cbn [verify_times repeat]. unfold bind at 1. rewrite Hrun.
      unfold bind at 1. rewrite Hrunn. unfold ret. do 2 f_equal.
      destruct Hvalid as (row & -> & Hrow). cbn. now rewrite Hrow.
    + rewrite Hcn, Hc1, <- app_assoc. reflexivity.
Qed.

(** The new token of a verdict: the confirmed row's in case (a), none
    otherwise. *)
Lemma isVerified_newCookie (a : Auth.t) (w : World S) :
  extracted a ->
  exists v w',
    isVerified a w = (Normal v, w') /\
    ((case_a a /\
      v = mkVerdict true "Authorization header verified"
            (cookie_string <$> created (fst (run_insert true (store w)))))
     \/ (~ case_a a /\ newCookie v = None)).
Proof.
  intros [Hth Htc].
  destruct (authHeader a) as [h|] eqn:Hh.
  - destruct (startsWith "Basic " h) eqn:Hp.
    + destruct (isVerified_credential a h w Hh Hp)
        as (v & w' & Hrun & _ & [(Ha & -> & _)|(Hna & -> & _)]);
        eexists _, w'; (split; [exact Hrun|]); [left|right]; auto.
    + eexists _, w.
      split; [exact (isVerified_invalid a h w Hh (Hth h eq_refl) Hp)|].
      right. split; [|reflexivity].
      intros Ha. apply (case_a_scheme a h Hh) in Ha. congruence.
  - assert (Hna : ~ case_a a) by (intros (h & Hh' & _); congruence).
    destruct (sessionCookie a) as [c|] eqn:Hc.
    + destruct (isVerified_token a c w Hh Hc (Htc c eq_refl)) as (w' & Hrun & _).
      eexists _, w'. split; [exact Hrun|]. right. split; [exact Hna|].
      destruct (classify (fst (run_select c (store w)))) as [| |row]; try reflexivity.
      cbn. now destruct (is_verified row).
    + eexists _, w. split; [exact (isVerified_nothing a w Hh Hc)|]. now right.
Qed.

(** *** The claims about the verifier *)

(** C1. For every request, the verdict of [isVerified] has
    [verified = true] in exactly two situations: (a) an inline credential
    was supplied and, after the ['Basic '] prefix is stripped and the
    rest base64-decoded, equals the configured secret, or (b) no inline
    credential was supplied, a session token was, and the store answers
    its lookup with a record whose verified flag is true.  In every
    other case [verified = false]. *)
Theorem verified_iff_two_cases (r : Request) (a : Auth.t) (w : World S) :
  Auth.new (Object r) = Normal a ->
  exists v w',
    isVerified a w = (Normal v, w') /\
    (verified v = true <-> case_a a \/ case_b a (store w)) /\
    (~ (case_a a \/ case_b a (store w)) -> verified v = false).
Proof.
  intros Hnew.
  destruct (isVerified_run a w (new_extracted r a Hnew))
    as (v & w' & made & Hrun & _ & _ & _ & Hv).
  exists v, w'. split; [exact Hrun|]. split; [exact Hv|].
  intros Hn. destruct (verified v); [|reflexivity]. now destruct Hn; apply Hv.
Qed.

(** C2. For every request, the verifier asks the store to create a
    record if and only if case (a) holds.  A token-based verification
    sends the lookup only, so [n] verifications in a row of a token
    that stays valid send [n] lookups, create nothing, and return the
    same verdict each time. *)
Theorem create_iff_inline_match (r : Request) (a : Auth.t) (w : World S) (n : nat) :
  Auth.new (Object r) = Normal a ->
  exists v w' made,
    isVerified a w = (Normal v, w') /\ calls w' = calls w ++ made /\
    (asks_create made <-> case_a a) /\
    (forall c,
        authHeader a = None -> sessionCookie a = Some c ->
        made = [SelectEqCookie c] /\
        ((forall s, token_valid c s -> token_valid c (snd (run_select c s))) ->
         token_valid c (store w) ->
         exists wn,
           verify_times n a w = (Normal (repeat v n), wn) /\
           calls wn = calls w ++ repeat (SelectEqCookie c) n /\
           ~ asks_create (repeat (SelectEqCookie c) n))).
Proof.
  intros Hnew. pose proof (new_extracted r a Hnew) as Hex.
  destruct (isVerified_run a w Hex) as (v & w' & made & Hrun & Hcalls & _ & Hmade & _).
  exists v, w', made. split; [exact Hrun|]. split; [exact Hcalls|].
  split; [exact Hmade|].
  intros c Hh Hc. pose proof (proj2 Hex c Hc) as Ht.
  destruct (isVerified_token a c w Hh Hc Ht) as (w1 & Hrun1 & _ & Hcalls1 & _).
  rewrite Hrun in Hrun1. injection Hrun1 as Hv <-.
  split.
  { rewrite Hcalls in Hcalls1. now apply app_inv_head in Hcalls1. }
  intros Hstable Hvalid.
  destruct (verify_times_valid a c n Hh Hc Ht Hstable w Hvalid) as (wn & Hrunn & Hcn).
  exists wn. split; [|split; [exact Hcn|]].
  - rewrite Hrunn, Hv. destruct Hvalid as (row & -> & Hrow). cbn. now rewrite Hrow.
  - intros [b Hin]. apply repeat_spec in Hin. discriminate.
Qed.

(** C3. For every request with no inline credential and a session
    token: a lookup that errors or raises, or finds no record, gives
    [{verified:false, reason:"Session cookie not found"}]; a record with
    the verified flag false gives
    [{verified:false, reason:"Session cookie is not verified"}]; a record
    with the flag true gives
    [{verified:true, reason:"Session cookie verified", newCookie:null}]. *)
Theorem token_path_verdicts (r : Request) (a : Auth.t) (c : string) (w : World S) :
  Auth.new (Object r) = Normal a ->
  authHeader a = None -> sessionCookie a = Some c ->
  let answer := classify (fst (run_select c (store w))) in
  (answer = LookupFailed \/ answer = NoRecord ->
   fst (isVerified a w) = Normal (mkVerdict false "Session cookie not found" None)) /\
  (forall row, answer = Record row -> is_verified row = false ->
   fst (isVerified a w) = Normal (mkVerdict false "Session cookie is not verified" None)) /\
  (forall row, answer = Record row -> is_verified row = true ->
   fst (isVerified a w) = Normal (mkVerdict true "Session cookie verified" None)).
Proof.
  intros Hnew Hh Hc answer.
  destruct (isVerified_token a c w Hh Hc (proj2 (new_extracted r a Hnew) c Hc))
    as (w' & Hrun & _).
  rewrite Hrun. cbn [fst]. fold answer.
  split; [|split].
  - now intros [-> | ->].
  - intros row -> Hrow. cbn. now rewrite Hrow.
  - intros row -> Hrow. cbn. now rewrite Hrow.
Qed.

(** C4. For every request whose inline credential matches the secret:
    when the store does not confirm the creation (the insert rejects,
    answers with an error, or returns no row) the verdict is still
    [{verified:true, reason:"Authorization header verified"}] with
    [newCookie] null.  For every request, [newCookie] is non-null only
    in case (a) and when the store confirmed a row, and it is then that
    row's token. *)
Theorem creation_failure_keeps_verdict (r : Request) (a : Auth.t) (w : World S) :
  Auth.new (Object r) = Normal a ->
  let answer := fst (run_insert true (store w)) in
  exists v w',
    isVerified a w = (Normal v, w') /\
    (case_a a -> created answer = None ->
     v = mkVerdict true "Authorization header verified" None) /\
    (forall tok, newCookie v = Some tok ->
       case_a a /\ exists row, created answer = Some row /\ cookie_string row = tok) /\
    (case_a a -> forall row, created answer = Some row ->
       v = mkVerdict true "Authorization header verified" (Some (cookie_string row))).
Proof.
  intros Hnew answer.
  destruct (isVerified_newCookie a w (new_extracted r a Hnew))
    as (v & w' & Hrun & [(Ha & Hv)|(Hna & Hv)]);
    exists v, w'; (split; [exact Hrun|]); fold answer in Hv |- *.
  - subst v. split; [|split].
    + intros _ ->. reflexivity.
    + intros tok Htok. split; [exact Ha|]. cbn in Htok.
      destruct (created answer) as [row|]; [|discriminate].
      exists row. split; [reflexivity|]. now injection Htok.
    + intros _ row ->. reflexivity.
  - split; [tauto|]. split; [|tauto]. intros tok Htok. congruence.
Qed.

(** C5. For every inline credential that starts with ['Basic '] and whose
    remainder does not decode to the configured secret (the decoder
    throwing included), the verifier returns
    [{verified:false, reason:"Password does not match"}], raises nothing,
    and sends nothing to the store. *)
Theorem mismatch_rejected (r : Request) (a : Auth.t) (rest : string) (w : World S) :
  Auth.new (Object r) = Normal a ->
  authHeader a = Some ("Basic " +:+ rest) ->
  (forall d, base64_toString rest = Normal d -> env_data_password <> Some d) ->
  exists w',
    isVerified a w = (Normal (mkVerdict false "Password does not match" None), w') /\
    calls w' = calls w /\ store w' = store w.
Proof.
  intros _ Hh Hbad.
  destruct (isVerified_credential a _ w Hh (startsWith_append "Basic " rest))
    as (v & w' & Hrun & _ & [(Ha & _)|(_ & -> & Hc & Hs)]).
  - exfalso. destruct Ha as (h & Hh' & rest' & secret & Heq & Hd & Hsec).
    rewrite Hh in Hh'. injection Hh' as <-.
    apply String.app_inj in Heq. subst rest'. exact (Hbad secret Hd Hsec).
  - exists w'. auto.
Qed.

(** C6. For every inline credential that does not start with the literal
    ['Basic '], the verifier returns
    [{verified:false, reason:"Invalid Authorization pattern"}] whatever
    the store holds, and leaves the world as it found it: the store is
    not consulted.  (A header whose value is the empty string is
    extracted as no credential at all.) *)
Theorem invalid_pattern (r : Request) (a : Auth.t) (h : string) (w : World S) :
  Auth.new (Object r) = Normal a ->
  authHeader a = Some h -> startsWith "Basic " h = false ->
  isVerified a w = (Normal (mkVerdict false "Invalid Authorization pattern" None), w).
Proof.
  intros Hnew Hh Hp.
  exact (isVerified_invalid a h w Hh (proj1 (new_extracted r a Hnew) h Hh) Hp).
Qed.

(** C9. For every request object the constructor returns an [Auth]
    without raising and leaves the world, store included, untouched; a
    missing authorization header or a missing [__Host-session] cookie is
    held as null, and a present non-empty one as itself. *)
Theorem constructor_extracts (r : Request) (w : World S) :
  exists a,
    lift (Auth.new (Object r)) w = (Normal a, w) /\
    (headers r ≫= (.!! "authorization") = None -> authHeader a = None) /\
    (cookies r ≫= (.!! "__Host-session") = None -> sessionCookie a = None) /\
    (forall h, authHeader a = Some h <->
               headers r ≫= (.!! "authorization") = Some h /\ h <> "") /\
    (forall c, sessionCookie a = Some c <->
               cookies r ≫= (.!! "__Host-session") = Some c /\ c <> "").
Proof.
  eexists. split; [reflexivity|]. cbn [authHeader sessionCookie].
  split; [now intros ->|]. split; [now intros ->|].
  split; intros s; rewrite or_null_Some, truthy_nonempty; reflexivity.
Qed.

(** C10. With no shared secret configured, the inline-credential check
    fails for every credential string: no request with an
    authorization header is verified, and no request makes the verifier
    ask the store for a new record. *)
Theorem unset_secret_never_matches (r : Request) (a : Auth.t) (w : World S) :
  env_data_password = None ->
  Auth.new (Object r) = Normal a ->
  fst (authHeaderPasswordMatch a w) = Normal false /\
  exists v w' made,
    isVerified a w = (Normal v, w') /\ calls w' = calls w ++ made /\
    ~ asks_create made /\
    (forall h, authHeader a = Some h -> verified v = false).
Proof.
  intros Hunset Hnew.
  assert (Hna : ~ case_a a).
  { intros (h & _ & rest & secret & _ & _ & Hsec). congruence. }
  split.
  - destruct (authHeaderPasswordMatch_run a w) as (b & w1 & -> & _ & _ & _ & Hb).
    cbn. destruct b; [|reflexivity]. now destruct Hna; apply Hb.
  - destruct (isVerified_run a w (new_extracted r a Hnew))
      as (v & w' & made & Hrun & Hcalls & _ & Hmade & Hv).
    exists v, w', made. split; [exact Hrun|]. split; [exact Hcalls|].
    split; [tauto|].
    intros h Hh. destruct (verified v); [|reflexivity].
    destruct Hv as [Hv _]. destruct (Hv eq_refl) as [Ha|[Hn _]]; [tauto|congruence].
Qed.

End VerifierRuns.

End AuthFacts.

(** ** The dispatcher *)

Module ApiResponseFacts.

Import Auth AuthSpec ApiResponse JsFacts AuthFacts.

Lemma max_age : pretty (30 * 24 * 60 * 60)%N = "2592000".
Proof. vm_compute. reflexivity. Qed.

Section DispatcherRuns.
Context {S : Type} {db : CredentialStore S} {proc : Process}.

Lemma setCookie_value (c : string) :
  setCookie c = "__Host-session=" +:+ c +:+ "; Max-Age=2592000; HttpOnly; Secure; Path=/".
Proof. unfold setCookie. now rewrite max_age. Qed.

(** Computing the verdict raises only in the constructor. *)
Lemma verdict_not_object (self : ApiResponse.t) (b : bool) (w : World S) :
  req self = NotObject b ->
  verdict self w =
    (Throw (Error "Auth constructor requires a valid request object"), w).
Proof. intros Hreq. unfold verdict. now rewrite Hreq. Qed.

Lemma verdict_object (self : ApiResponse.t) (r : Request) (w : World S) :
  req self = Object r ->
  exists a v w',
    Auth.new (Object r) = Normal a /\ isVerified a w = (Normal v, w') /\
    verdict self w = (Normal v, w').
Proof.
  intros Hreq. unfold verdict. rewrite Hreq.
  destruct (isVerified_run (S := S) _ w (new_extracted r _ eq_refl))
    as (v & w' & _ & Hrun & _).
  eexists _, v, w'. split; [reflexivity|]. split; [exact Hrun|].
  cbn [Auth.new]. unfold bind, lift. exact Hrun.
Qed.

(** The three ways [respond] goes. *)
Lemma respond_with_token (self : ApiResponse.t) (v : Verdict) (c : string) (w : World S) :
  verified v = true -> newCookie v = Some c -> truthy c = true ->
  respond self v w =
    (await (onSuccess self (req self) (Some c)) ;;; ret Settles)
      (with_header "Set-Cookie" (setCookie c) w).
Proof.
  intros Hv Hc Ht. unfold respond. rewrite Hv, Hc, Ht. reflexivity.
Qed.

Lemma respond_without_token (self : ApiResponse.t) (v : Verdict) (w : World S) :
  verified v = true -> to_boolean (newCookie v) = false ->
  respond self v w =
    (await (onSuccess self (req self) (newCookie v)) ;;; ret Settles) w.
Proof.
  intros Hv Hc. unfold respond. rewrite Hv.
  destruct (newCookie v) as [c|]; [|reflexivity].
  cbn in Hc. rewrite Hc. reflexivity.
Qed.

Lemma respond_rejected (self : ApiResponse.t) (v : Verdict) (w : World S) :
  verified v = false -> respond self v w = onError self (reason v) w.
Proof. intros Hv. unfold respond. now rewrite Hv. Qed.

(** Whatever [respond] throws inside the [try] does not leave [send]
    on its own: an exception of [send] is one of the error callback. *)
Lemma await_throws (p : M S Returned) (w w' : World S) (e : Exn) :
  await p w = (Throw e, w') ->
  p w = (Throw e, w') \/ p w = (Normal (Rejects e), w').
Proof.
  unfold await, bind, ret, throw.
  destruct (p w) as [[[|e1]|e1] w1]; intros [= <- <-]; auto.
Qed.

Lemma try_catch_throw {A B : Type} (m : M S A) (k : A -> M S B) (h : Exn -> M S B)
    (w : World S) (e : Exn) (w1 : World S) :
  m w = (Throw e, w1) -> try_catch (bind m k) h w = h e w1.
Proof. intros Hm. unfold try_catch, bind. now rewrite Hm. Qed.

(** C7, as the code has it.  An exception raised while the verdict is
    computed is caught, logged, and turned into one call of the error
    callback with the reason ['Internal authentication error']; the
    outcome of [send] is then the outcome of that call.  [send] hands an
    exception to its caller only when a call of the error callback
    raised it or returned a promise rejected with it. *)
Theorem send_converts_exceptions (self : ApiResponse.t) (w : World S) :
  (forall e w1, verdict self w = (Throw e, w1) ->
     send self w =
       await (onError self "Internal authentication error")
         (logged "Auth verification error:" (LogExn e) w1)) /\
  (forall e w', send self w = (Throw e, w') ->
     exists reason w0,
       onError self reason w0 = (Throw e, w') \/
       onError self reason w0 = (Normal (Rejects e), w')).
Proof.
  split.
  - intros e w1 Hv. unfold send, await. unfold bind at 1 3.
    now rewrite (try_catch_throw _ _ _ w e w1 Hv).
  - intros e w' Hsend. apply await_throws in Hsend.
    unfold try_catch in Hsend.
    destruct (bind (verdict self) (fun authResult => respond self authResult) w)
      as [[r|e1] w1] eqn:Hbody.
    + (* the [try] block returned: a promise handed back by [onError] *)
      destruct Hsend as [Hsend|Hsend]; [discriminate|].
      injection Hsend as -> ->.
      unfold bind in Hbody.
      destruct (verdict self w) as [[v|e2] w2]; [|discriminate].
      unfold respond in Hbody. destruct (verified v).
      * cbv [bind await ret throw] in Hbody.
        destruct (match newCookie v with
                  | Some c => if truthy c then setHeader "Set-Cookie" (setCookie c)
                              else fun w => (Normal tt, w)
                  | None => fun w => (Normal tt, w)
                  end w2) as [[u|e3] w3]; [|discriminate].
        destruct (onSuccess self (req self) (newCookie v) w3) as [[[|e4]|e4] w4];
          discriminate.
      * exists (reason v), w2. now right.
    + (* the [catch] block ran *)
      exists "Internal authentication error",
        (logged "Auth verification error:" (LogExn e1) w1).
      unfold bind, console_error in Hsend. exact Hsend.
Qed.

(** C8, as the code has it.  For a verdict with [verified = true] and a
    [newCookie] that is a non-empty string, the dispatcher sets the
    [Set-Cookie] header of the response to
    ['__Host-session=<token>; Max-Age=2592000; HttpOnly; Secure; Path=/']
    and then invokes the success callback on that response; the header
    map holds this one value under [Set-Cookie].  When [newCookie] is
    null or the empty string, or [verified] is false, the callback
    receives the response as it was: no header is attached. *)
Theorem respond_sets_cookie (self : ApiResponse.t) (v : Verdict) (w : World S) :
  (forall c, verified v = true -> newCookie v = Some c -> c <> "" ->
     let value := "__Host-session=" +:+ c +:+ "; Max-Age=2592000; HttpOnly; Secure; Path=/" in
     respond self v w =
       (await (onSuccess self (req self) (Some c)) ;;; ret Settles)
         (with_header "Set-Cookie" value w) /\
     res_headers (response (with_header "Set-Cookie" value w)) !! "Set-Cookie"
       = Some value) /\
  (verified v = true -> newCookie v = None \/ newCookie v = Some "" ->
     respond self v w =
       (await (onSuccess self (req self) (newCookie v)) ;;; ret Settles) w) /\
  (verified v = false -> respond self v w = onError self (reason v) w).
Proof.
  split; [|split].
  - intros c Hv Hc Hne value. split.
    + rewrite (respond_with_token self v c w Hv Hc) by now apply truthy_nonempty.
      now rewrite setCookie_value.
    + cbn. apply lookup_insert_eq.
  - intros Hv Hc. apply respond_without_token; [exact Hv|].
    now destruct Hc as [-> | ->].
  - apply respond_rejected.
Qed.

End DispatcherRuns.

End ApiResponseFacts.

(** ** The theorems at work on the scenario store *)

Module Runs.

Import Auth AuthSpec ApiResponse Scenario.

(** Lookups on the table leave it as it is, so a valid token stays valid. *)
Lemma table_lookup_stable (c : string) (s : Table) :
  token_valid c s -> token_valid c (snd (run_select c s)).
Proof.
  assert (Hs : snd (run_select c s) = s).
  { cbn. unfold table_select. now destruct (health s). }
  now rewrite Hs.
Qed.

Lemma abc123_valid : token_valid "abc123" table.
Proof. exists abc123. split; reflexivity. Qed.

(** The end-to-end scenarios of the specification. *)
Example basic_credential_sets_cookie :
  let w := snd (send (dispatcher (Object (request (Some "Basic Y29ycmVjdC1zZWNyZXQ=") None)))
                  (world table)) in
  res_headers (response w) !! "Set-Cookie"
    = Some "__Host-session=tok-9; Max-Age=2592000; HttpOnly; Secure; Path=/" /\
  res_status (response w) = Some 200 /\
  calls w = [InsertVerified true].
Proof. vm_compute. auto. Qed.

Example unknown_cookie_is_401 :
  let w := snd (send (dispatcher (Object (request None (Some "zzz")))) (world table)) in
  res_status (response w) = Some 401 /\
  res_body (response w)
    = Some [("error", "Unauthorized"); ("reason", "Session cookie not found")] /\
  calls w = [SelectEqCookie "zzz"].
Proof. vm_compute. auto. Qed.

Example three_verifications_of_abc123 :
  verify_times 3 (mkAuth (request None (Some "abc123")) None (Some "abc123")) (world table)
  = (Normal (repeat (mkVerdict true "Session cookie verified" None) 3),
     mkWorld table blank (repeat (SelectEqCookie "abc123") 3) []).
Proof. vm_compute. reflexivity. Qed.

Example unverified_cookie_is_refused :
  fst (isVerified (mkAuth (request None (Some "def456")) None (Some "def456")) (world table))
  = Normal (mkVerdict false "Session cookie is not verified" None).
Proof. vm_compute. reflexivity. Qed.

Example failed_lookup_is_not_found :
  isVerified cookie_auth (world erroring)
  = (Normal (mkVerdict false "Session cookie not found" None),
     mkWorld erroring blank [SelectEqCookie "abc123"]
       [("Database error checking cookie:", LogDbError "connection refused")]).
Proof. vm_compute. reflexivity. Qed.

Example constructor_refuses_non_objects (b : bool) :
  Auth.new (NotObject b) = Throw (Error "Auth constructor requires a valid request object").
Proof. reflexivity. Qed.

Example empty_header_is_no_credential :
  Auth.new (Object (request (Some "") (Some "abc123")))
  = Normal (mkAuth (request (Some "") (Some "abc123")) None (Some "abc123")).
Proof. vm_compute. reflexivity. Qed.

Example throwing_decoder_is_a_mismatch :
  let a := mkAuth (request (Some "Basic !!!") None) (Some "Basic !!!") None in
  isVerified (proc := process_throwing) a (world table)
  = (Normal (mkVerdict false "Password does not match" None),
     mkWorld table blank []
       [("Error decoding auth header:", LogExn (TypeError "invalid base64"))]).
Proof. vm_compute. reflexivity. Qed.

(** C1 on the request that carries the cookie [abc123]. *)
Lemma verified_iff_two_cases_abc123 :
  Auth.new (Object with_cookie) = Normal cookie_auth /\
  exists v w',
    isVerified cookie_auth (world table) = (Normal v, w') /\
    (verified v = true <-> case_a cookie_auth \/ case_b cookie_auth (store (world table))) /\
    (~ (case_a cookie_auth \/ case_b cookie_auth (store (world table))) ->
     verified v = false).
Proof.
  split; [reflexivity|].
  apply (AuthFacts.verified_iff_two_cases with_cookie). reflexivity.
Defined.

(** C2 on the same request, verified three times. *)
Lemma create_iff_inline_match_abc123 :
  Auth.new (Object with_cookie) = Normal cookie_auth /\
  exists v w' made,
    isVerified cookie_auth (world table) = (Normal v, w') /\
    calls w' = calls (world table) ++ made /\
    (asks_create made <-> case_a cookie_auth) /\
    (forall c,
        authHeader cookie_auth = None -> sessionCookie cookie_auth = Some c ->
        made = [SelectEqCookie c] /\
        ((forall s, token_valid c s -> token_valid c (snd (run_select c s))) ->
         token_valid c (store (world table)) ->
         exists wn,
           verify_times 3 cookie_auth (world table) = (Normal (repeat v 3), wn) /\
           calls wn = calls (world table) ++ repeat (SelectEqCookie c) 3 /\
           ~ asks_create (repeat (SelectEqCookie c) 3))).
Proof.
  split; [reflexivity|].
  apply (AuthFacts.create_iff_inline_match with_cookie). reflexivity.
Defined.

(** C3 on the same request. *)
Lemma token_path_verdicts_abc123 :
  (Auth.new (Object with_cookie) = Normal cookie_auth /\
   authHeader cookie_auth = None /\
   sessionCookie cookie_auth = Some "abc123") /\
  (classify (fst (run_select "abc123" (store (world table)))) = Record abc123 /\
   fst (isVerified cookie_auth (world table))
     = Normal (mkVerdict true "Session cookie verified" None)).
Proof.
  split; [repeat split|]. split; [reflexivity|].
  apply (AuthFacts.token_path_verdicts with_cookie cookie_auth "abc123" (world table)
           eq_refl eq_refl eq_refl) with (row := abc123); reflexivity.
Defined.

(** C4 on a matching credential while the store answers with an error. *)
Lemma creation_failure_keeps_verdict_erroring :
  Auth.new (Object with_secret) = Normal secret_auth /\
  exists v w',
    isVerified secret_auth (world erroring) = (Normal v, w') /\
    (case_a secret_auth ->
     created (fst (run_insert true (store (world erroring)))) = None ->
     v = mkVerdict true "Authorization header verified" None) /\
    (forall tok, newCookie v = Some tok ->
       case_a secret_auth /\
       exists row, created (fst (run_insert true (store (world erroring)))) = Some row /\
                   cookie_string row = tok) /\
    (case_a secret_auth ->
     forall row, created (fst (run_insert true (store (world erroring)))) = Some row ->
       v = mkVerdict true "Authorization header verified" (Some (cookie_string row))).
Proof.
  split; [reflexivity|].
  apply (AuthFacts.creation_failure_keeps_verdict with_secret). reflexivity.
Defined.

Lemma wrong_is_not_the_secret (d : string) :
  base64_toString "d3Jvbmc=" = Normal d -> env_data_password <> Some d.
Proof. intros Hd. vm_compute in Hd. injection Hd as <-. vm_compute. discriminate. Qed.

(** C5 on the credential that encodes [wrong]. *)
Lemma mismatch_rejected_wrong :
  (Auth.new (Object with_wrong) = Normal wrong_auth /\
   authHeader wrong_auth = Some ("Basic " +:+ "d3Jvbmc=") /\
   (forall d, base64_toString "d3Jvbmc=" = Normal d -> env_data_password <> Some d)) /\
  exists w',
    isVerified wrong_auth (world table)
      = (Normal (mkVerdict false "Password does not match" None), w') /\
    calls w' = calls (world table) /\ store w' = store (world table).
Proof.
  split; [repeat split; exact wrong_is_not_the_secret|].
  apply (AuthFacts.mismatch_rejected with_wrong wrong_auth "d3Jvbmc=" (world table));
    [reflexivity|reflexivity|exact wrong_is_not_the_secret].
Defined.

(** C6 on a bearer credential. *)
Lemma invalid_pattern_bearer :
  (Auth.new (Object with_bearer) = Normal bearer_auth /\
   authHeader bearer_auth = Some "Bearer abc123" /\
   startsWith "Basic " "Bearer abc123" = false) /\
  isVerified bearer_auth (world table)
    = (Normal (mkVerdict false "Invalid Authorization pattern" None), world table).
Proof.
  split; [repeat split|].
  apply (AuthFacts.invalid_pattern with_bearer bearer_auth "Bearer abc123");
    reflexivity.
Defined.

(** C9 on the bearer request. *)
Lemma constructor_extracts_bearer :
  exists a,
    lift (Auth.new (Object with_bearer)) (world table) = (Normal a, world table) /\
    (headers with_bearer ≫= (.!! "authorization") = None -> authHeader a = None) /\
    (cookies with_bearer ≫= (.!! "__Host-session") = None -> sessionCookie a = None) /\
    (forall h, authHeader a = Some h <->
               headers with_bearer ≫= (.!! "authorization") = Some h /\ h <> "") /\
    (forall c, sessionCookie a = Some c <->
               cookies with_bearer ≫= (.!! "__Host-session") = Some c /\ c <> "").
Proof. exact (AuthFacts.constructor_extracts with_bearer (world table)). Defined.

(** C10 on the matching credential, with no secret configured. *)
Lemma unset_secret_never_matches_basic :
  (env_data_password (Process := process_unset) = None /\
   Auth.new (Object with_secret) = Normal secret_auth) /\
  fst (authHeaderPasswordMatch (proc := process_unset) secret_auth (world table))
    = Normal false /\
  exists v w' made,
    isVerified (proc := process_unset) secret_auth (world table) = (Normal v, w') /\
    calls w' = calls (world table) ++ made /\
    ~ asks_create made /\
    (forall h, authHeader secret_auth = Some h -> verified v = false).
Proof.
  split; [split; reflexivity|].
  apply (AuthFacts.unset_secret_never_matches (proc := process_unset) with_secret);
    reflexivity.
Defined.

(** C7 where the request is not an object: the constructor raises, and
    the error callback answers 401. *)
Lemma send_converts_exceptions_not_object :
  verdict (dispatcher (NotObject true)) (world table)
    = (Throw (Error "Auth constructor requires a valid request object"), world table) /\
  send (dispatcher (NotObject true)) (world table)
    = await (onError (dispatcher (NotObject true)) "Internal authentication error")
        (logged "Auth verification error:"
           (LogExn (Error "Auth constructor requires a valid request object"))
           (world table)).
Proof.
  split; [reflexivity|].
  apply (proj1 (ApiResponseFacts.send_converts_exceptions
                  (dispatcher (NotObject true)) (world table))).
  reflexivity.
Defined.

(** C7 as stated fails: a request without credentials is rejected, the
    error callback throws both times it is called, and [send] hands that
    exception to its caller. *)
Lemma send_propagates_callback_exception :
  fst (send (failing (Object anonymous)) (world table))
    = Throw (Error "response already sent").
Proof. vm_compute. reflexivity. Qed.

(** C8 on the verdict that carries the token [tok-9]. *)
Lemma respond_sets_cookie_tok9 :
  (verified (mkVerdict true "Authorization header verified" (Some "tok-9")) = true /\
   "tok-9" <> "") /\
  respond (dispatcher (Object with_secret))
    (mkVerdict true "Authorization header verified" (Some "tok-9")) (world table)
  = (await (onSuccess (dispatcher (Object with_secret)) (Object with_secret) (Some "tok-9"))
     ;;; ret Settles)
      (with_header "Set-Cookie"
         "__Host-session=tok-9; Max-Age=2592000; HttpOnly; Secure; Path=/" (world table)).
Proof.
  split; [split; [reflexivity|discriminate]|].
  apply (proj1 (ApiResponseFacts.respond_sets_cookie
                  (dispatcher (Object with_secret))
                  (mkVerdict true "Authorization header verified" (Some "tok-9"))
                  (world table)) "tok-9");
    [reflexivity|reflexivity|discriminate].
Defined.

(** C8 as stated fails: the store hands out the empty string as token,
    the verdict carries it as a non-null [newCookie], and the response
    leaves [send] without a [Set-Cookie] header. *)
Lemma empty_token_sets_no_cookie :
  fst (verdict (dispatcher (Object with_secret)) (world minting_empty))
    = Normal (mkVerdict true "Authorization header verified" (Some "")) /\
  fst (send (dispatcher (Object with_secret)) (world minting_empty)) = Normal tt /\
  res_headers (response (snd (send (dispatcher (Object with_secret))
                                (world minting_empty)))) !! "Set-Cookie" = None.
Proof. vm_compute. auto. Qed.

End Runs.

(** ** Facts about [trim] *)

Module JsTextFacts.

Import JsText.

Lemma trimStart_empty (s : string) : trimStart s = EmptyString <-> blank s = true.
Proof.
  induction s as [|c s IH]; cbn; [tauto|].
  destruct (is_space c); cbn; [exact IH|].
  split; discriminate.
Qed.

Lemma trimEnd_empty (s : string) : trimEnd s = EmptyString <-> blank s = true.
Proof.
  induction s as [|c s IH]; cbn; [tauto|].
  destruct (trimEnd s) as [|d t].
  - destruct (is_space c); cbn; [|split; discriminate].
    split; intros _; [now apply IH|reflexivity].
  - split; [discriminate|].
    intros [_ Hs]%andb_true_iff. apply IH in Hs. discriminate.
Qed.

Lemma blank_trimStart (s : string) : blank (trimStart s) = blank s.
Proof.
  induction s as [|c s IH]; cbn; [reflexivity|].
  destruct (is_space c) eqn:Hc; cbn; [exact IH|].
  now rewrite Hc.
Qed.

(** The trimmed string is empty exactly for a string of white space. *)
Lemma trim_length_zero (s : string) :
  (String.length (trim s) =? 0)%nat = blank s.
Proof.
  unfold trim. rewrite <- (blank_trimStart s).
  destruct (blank (trimStart s)) eqn:Hb.
  - apply trimEnd_empty in Hb. now rewrite Hb.
  - destruct (trimEnd (trimStart s)) as [|c t] eqn:Ht; [|reflexivity].
    apply trimEnd_empty in Ht. congruence.
Qed.

Lemma blank_truthy (s : string) : blank s = false -> truthy s = true.
Proof. now destruct s. Qed.

End JsTextFacts.

(** ** The cookie functions *)

Module CookiesFacts.

Import Auth AuthSpec JsText JsTextFacts Cookies.

Section CookieRuns.
Context {S : Type} {db : CredentialStore S}.

(** A missing, empty or all-white-space cookie is refused before any query:
    the result is the 'cookie argument is required' error and the world is
    unchanged. *)
Theorem checkCookieState_requires_cookie (cookie : option string) (w : World S) :
  (forall c, cookie = Some c -> blank c = true) ->
  checkCookieState cookie w
  = (Normal (Result.mk false None None "cookie argument is required" true), w).
Proof.
  intros Hblank. unfold checkCookieState.
  destruct cookie as [c|]; [|reflexivity].
  rewrite trim_length_zero, (Hblank c eq_refl), orb_true_r. reflexivity.
Qed.

Lemma checkCookieState_run (c : string) (w : World S) :
  blank c = false ->
  exists w',
    checkCookieState (Some c) w = (Normal (state_of (fst (run_select c (store w)))), w') /\
    calls w' = calls w ++ [SelectEqCookie c] /\
    store w' = snd (run_select c (store w)) /\
    response w' = response w /\
    console w'
    = console w ++
      match fst (run_select c (store w)) with
      | Throw e => [("Unexpected error checking cookie:", LogExn e)]
      | Normal (mkDbResponse (Some err) _) =>
          [("Database error fetching cookie:", LogDbError err)]
      | Normal (mkDbResponse None None) =>
          [("Unexpected error checking cookie:",
            LogExn (TypeError "Cannot read properties of null (reading 'length')"))]
      | Normal (mkDbResponse None (Some _)) => []
      end.
Proof.
  intros Hb. unfold checkCookieState.
  rewrite trim_length_zero, Hb, (blank_truthy c Hb). cbn [negb orb].
  unfold try_catch, bind, select_eq_cookie, data_length, data_first, console_error,
    ret, throw.
  destruct (run_select c (store w)) as [[[[err|] [[|row rows]|]]|e] s'];
    cbn; eexists; rewrite ?app_nil_r; repeat split.
Qed.

(** For any other cookie [checkCookieState] returns without raising after
    exactly one lookup.  A record gives [success] with its id and flag; no
    record gives 'cookie not found' with [error = false]; a failed lookup
    gives [error = true] and one console line. *)
Theorem checkCookieState_result (c : string) (w : World S) :
  blank c = false ->
  exists res w',
    checkCookieState (Some c) w = (Normal res, w') /\
    calls w' = calls w ++ [SelectEqCookie c] /\
    store w' = snd (run_select c (store w)) /\
    response w' = response w /\
    match classify (fst (run_select c (store w))) with
    | Record row =>
        res = Result.mk true (Some (record_id row)) (Some (is_verified row)) EmptyString false
        /\ console w' = console w
    | NoRecord =>
        res = Result.mk false None None "cookie not found" false /\ console w' = console w
    | LookupFailed =>
        Result.success res = false /\ Result.error res = true /\
        Result.id res = None /\ Result.verified res = None /\
        exists entry, console w' = console w ++ [entry]
    end.
Proof.
  intros Hb.
  destruct (checkCookieState_run c w Hb) as (w' & Hrun & Hcalls & Hs & Hr & Hcons).
  eexists _, w'. split; [exact Hrun|]. split; [exact Hcalls|]. split; [exact Hs|].
  split; [exact Hr|]. rewrite Hcons.
  destruct (fst (run_select c (store w))) as [[[err|] [[|row rows]|]]|e]; cbn;
    rewrite ?app_nil_r; repeat split; eexists; reflexivity.
Qed.

(** [checkCookieState] and the verifier's [#isCookieVerified] agree on
    every cookie that is not blank: the same lookup, the same store
    afterwards, and the same found flag, verified flag and id. *)
Theorem checkCookieState_agrees (a : Auth.t) (c : string) (w : World S) :
  sessionCookie a = Some c -> blank c = false ->
  exists chk w1 res w2,
    isCookieVerified a w = (Normal chk, w1) /\
    checkCookieState (Some c) w = (Normal res, w2) /\
    store w1 = store w2 /\ calls w1 = calls w2 /\
    Result.success res = found chk /\
    Result.id res = check_id chk /\
    Result.verified res = (if found chk then Some (check_verified chk) else None).
Proof.
  intros Hc Hb.
  destruct (AuthFacts.isCookieVerified_run a c w Hc (blank_truthy c Hb))
    as (w1 & Hrun1 & Hs1 & Hc1 & _).
  destruct (checkCookieState_run c w Hb) as (w2 & Hrun2 & Hc2 & Hs2 & _).
  eexists _, w1, _, w2. split; [exact Hrun1|]. split; [exact Hrun2|].
  split; [congruence|]. split; [congruence|].
  now destruct (fst (run_select c (store w))) as [[[err|] [[|row rows]|]]|e].
Qed.

(** A cookie of white space only is where the two part ways: the verifier
    looks it up in the store, [checkCookieState] refuses it unasked. *)
Theorem blank_cookie_divergence (a : Auth.t) (c : string) (w : World S) :
  sessionCookie a = Some c -> truthy c = true -> blank c = true ->
  (exists chk w1,
     isCookieVerified a w = (Normal chk, w1) /\
     calls w1 = calls w ++ [SelectEqCookie c]) /\
  checkCookieState (Some c) w
  = (Normal (Result.mk false None None "cookie argument is required" true), w).
Proof.
  intros Hc Ht Hb. split.
  - destruct (AuthFacts.isCookieVerified_run a c w Hc Ht) as (w1 & Hrun & _ & Hcalls & _).
    eexists _, w1. split; [exact Hrun|exact Hcalls].
  - unfold checkCookieState. now rewrite trim_length_zero, Hb, orb_true_r.
Qed.

Lemma createCookie_answer (arg : VerifiedArg) (w : World S) :
  match boolean_of arg with
  | None => createCookie arg w = (Normal refused, w)
  | Some v =>
      exists res w',
        createCookie arg w = (Normal res, w') /\
        calls w' = calls w ++ [InsertVerified v] /\
        store w' = snd (run_insert v (store w)) /\
        response w' = response w /\
        match created (fst (run_insert v (store w))) with
        | Some row =>
            res = Result.mk true (Some (record_id row)) (Some (is_verified row))
                    (cookie_string row) false
            /\ console w' = console w
        | None =>
            Result.success res = false /\ Result.error res = true /\
            Result.id res = None /\ Result.verified res = None /\
            exists entry, console w' = console w ++ [entry]
        end
  end.
Proof.
  unfold createCookie. destruct (boolean_of arg) as [v|]; [|reflexivity].
  unfold try_catch, bind, insert_select, data_first, console_error, ret, throw.
  destruct (run_insert v (store w)) as [[[[err|] [[|row rows]|]]|e] s'];
    cbn; eexists _, _; repeat split; eexists; reflexivity.
Qed.

(** [createCookie] never raises.  An argument that is neither undefined
    nor a boolean is refused before any query.  Otherwise one insert is
    sent, with [false] for an undefined argument; the call succeeds exactly
    when the store confirms a row, and then returns that row's id, its
    verified flag as stored, and its token in [message].  Every failure
    carries [error = true] and neither id nor flag. *)
Theorem createCookie_result (arg : VerifiedArg) (w : World S) :
  exists res w',
    createCookie arg w = (Normal res, w') /\
    (boolean_of arg = None ->
     w' = w /\ Result.success res = false /\ Result.error res = true) /\
    (forall v, boolean_of arg = Some v ->
       calls w' = calls w ++ [InsertVerified v] /\
       (Result.success res = true <->
        exists row, created (fst (run_insert v (store w))) = Some row) /\
       (forall row, created (fst (run_insert v (store w))) = Some row ->
          res = Result.mk true (Some (record_id row)) (Some (is_verified row))
                  (cookie_string row) false)) /\
    (Result.success res = false ->
     Result.error res = true /\ Result.id res = None /\ Result.verified res = None).
Proof.
  pose proof (createCookie_answer arg w) as Hrun.
  destruct (boolean_of arg) as [v|].
  - destruct Hrun as (res & w' & Hrun & Hcalls & _ & _ & Hres).
    exists res, w'. split; [exact Hrun|]. split; [discriminate|].
    destruct (created (fst (run_insert v (store w)))) as [row|] eqn:Hcr.
    + destruct Hres as (-> & _). split.
      * intros v' [= <-]. rewrite Hcr. split; [exact Hcalls|]. split.
        -- split; [intros _; now exists row|reflexivity].
        -- now intros row' [= <-].
      * discriminate.
    + destruct Hres as (Hs & He & Hi & Hv & _). split.
      * intros v' [= <-]. rewrite Hcr. split; [exact Hcalls|]. split.
        -- split; [congruence|]. intros [row Hrow]. discriminate.
        -- discriminate.
      * auto.
  - exists refused, w. split; [exact Hrun|]. split; [auto|]. split; [discriminate|auto].
Qed.

(** The verifier's [#createCookie] is [createCookie(true)]: the two leave
    the same world, succeed together, and then hold the same id and the
    same token. *)
Theorem createCookie_agrees (a : Auth.t) (w : World S) :
  exists minted w1 res,
    Auth.createCookie a w = (Normal minted, w1) /\
    createCookie (Boolean true) w = (Normal res, w1) /\
    Auth.success minted = Result.success res /\
    result_id minted = Result.id res /\
    cookie minted = (if Result.success res then Some (Result.message res) else None).
Proof.
  unfold Auth.createCookie, createCookie, boolean_of.
  unfold try_catch, bind, insert_select, data_first, console_error, ret, throw.
  destruct (run_insert true (store w)) as [[[[err|] [[|row rows]|]]|e] s'];
    cbn; eexists _, _, _; repeat split.
Qed.

End CookieRuns.

End CookiesFacts.

(** ** More about the verifier *)

Module VerifierFacts.

Import Auth AuthSpec JsFacts AuthFacts.

Section MoreRuns.
Context {S : Type} {db : CredentialStore S} {proc : Process}.

(** What [#isCookieVerified()] writes to the console. *)
Lemma isVerified_token_console (a : Auth.t) (c : string) (w : World S) :
  authHeader a = None -> sessionCookie a = Some c -> truthy c = true ->
  console (snd (isVerified a w))
  = console w ++
    match fst (run_select c (store w)) with
    | Throw e => [("Unexpected error checking cookie:", LogExn e)]
    | Normal (mkDbResponse (Some err) _) =>
        [("Database error checking cookie:", LogDbError err)]
    | Normal (mkDbResponse None None) =>
        [("Unexpected error checking cookie:",
          LogExn (TypeError "Cannot read properties of null (reading 'length')"))]
    | Normal (mkDbResponse None (Some _)) => []
    end.
Proof.
  intros Hh Hc Ht. unfold isVerified, hasAuthHeader, hasCookie.
  rewrite Hh, Hc. cbn [to_boolean]. rewrite Ht. cbn [negb].
  unfold isCookieVerified. rewrite Hc, Ht. cbn [negb].
  unfold try_catch, bind, select_eq_cookie, data_length, data_first, console_error,
    ret, throw.
  destruct (run_select c (store w)) as [[[[err|] [[|row rows]|]]|e] s'];
    cbn; rewrite ?app_nil_r; try reflexivity.
  now destruct (is_verified row).
Qed.

(** The three shapes of one verification: no query, one insert, one lookup. *)
Lemma isVerified_paths (a : Auth.t) (w : World S) :
  extracted a ->
  exists v w',
    isVerified a w = (Normal v, w') /\ response w' = response w /\
    ((calls w' = calls w /\ store w' = store w /\ verified v = false /\
      newCookie v = None /\
      In (reason v) ["Invalid Authorization pattern"; "Password does not match";
                     "No Authorization header or session cookie found"])
     \/
     (case_a a /\ calls w' = calls w ++ [InsertVerified true] /\
      store w' = snd (run_insert true (store w)) /\
      v = mkVerdict true "Authorization header verified"
            (cookie_string <$> created (fst (run_insert true (store w)))))
     \/
     (exists c, authHeader a = None /\ sessionCookie a = Some c /\
                calls w' = calls w ++ [SelectEqCookie c] /\
                store w' = snd (run_select c (store w)) /\
                v = token_verdict (classify (fst (run_select c (store w)))))).
Proof.
  intros [Hth Htc].
  destruct (authHeader a) as [h|] eqn:Hh.
  - destruct (startsWith "Basic " h) eqn:Hp.
    + destruct (isVerified_credential a h w Hh Hp)
        as (v & w' & Hrun & Hr & [(Ha & Hv & Hc & Hs)|(Hna & Hv & Hc & Hs)]);
        exists v, w'; (split; [exact Hrun|]); (split; [exact Hr|]).
      * right. left. repeat split; assumption.
      * left. subst v. cbn. repeat split; auto 10.
    + eexists _, w. split; [exact (isVerified_invalid a h w Hh (Hth h eq_refl) Hp)|].
      split; [reflexivity|]. left. cbn. repeat split; auto 10.
  - destruct (sessionCookie a) as [c|] eqn:Hc.
    + destruct (isVerified_token a c w Hh Hc (Htc c eq_refl)) as (w' & Hrun & Hs & Hcalls & Hr).
      eexists _, w'. split; [exact Hrun|]. split; [exact Hr|].
      right. right. exists c. repeat split; assumption.
    + eexists _, w. split; [exact (isVerified_nothing a w Hh Hc)|].
      split; [reflexivity|]. left. cbn. repeat split; auto 10.
Qed.

(** A request that carries neither an authorization header nor a session
    cookie, or carries them empty, is rejected with 'No Authorization header
    or session cookie found', and the world is left as it was. *)
Theorem no_credentials_rejected (r : Request) (w : World S) :
  (forall h, headers r ≫= (.!! "authorization") = Some h -> h = EmptyString) ->
  (forall c, cookies r ≫= (.!! "__Host-session") = Some c -> c = EmptyString) ->
  exists a,
    Auth.new (Object r) = Normal a /\
    isVerified a w
    = (Normal (mkVerdict false "No Authorization header or session cookie found" None), w).
Proof.
  intros Hh Hc. eexists. split; [reflexivity|].
  apply isVerified_nothing; cbn; apply or_null_None.
  - destruct (headers r ≫= (.!! "authorization")) as [h|]; [right|now left].
    now rewrite (Hh h eq_refl).
  - destruct (cookies r ≫= (.!! "__Host-session")) as [c|]; [right|now left].
    now rewrite (Hc c eq_refl).
Qed.

(** The authorization header shadows the session cookie: when a header is
    present the store is never asked about the cookie, and a header that
    does not match is rejected whatever the cookie is worth. *)
Theorem header_shadows_cookie (r : Request) (a : Auth.t) (h : string) (w : World S) :
  Auth.new (Object r) = Normal a -> authHeader a = Some h ->
  exists v w' made,
    isVerified a w = (Normal v, w') /\ calls w' = calls w ++ made /\
    (forall c, ~ In (SelectEqCookie c) made) /\
    (~ case_a a -> verified v = false /\ made = [] /\ store w' = store w).
Proof.
  intros Hnew Hh.
  destruct (isVerified_paths a w (new_extracted r a Hnew))
    as (v & w' & Hrun & _ & [(Hc & Hs & Hv & _)|[(Ha & Hc & Hs & Hv)|(c & Hn & _)]]).
  - exists v, w', []. rewrite app_nil_r. repeat split; auto.
  - exists v, w', [InsertVerified true]. repeat split; auto; try tauto.
    intros c [Hin|[]]. discriminate.
  - congruence.
Qed.

(** One verification sends at most one query, never a read and a write:
    nothing, or one insert (in case (a) only), or one lookup (on the token
    path only).  It never touches the response, and without a query the
    store is unchanged. *)
Theorem one_query_at_most (r : Request) (a : Auth.t) (w : World S) :
  Auth.new (Object r) = Normal a ->
  exists v w' made,
    isVerified a w = (Normal v, w') /\ calls w' = calls w ++ made /\
    response w' = response w /\
    (made = [] \/
     (made = [InsertVerified true] /\ case_a a) \/
     (exists c, made = [SelectEqCookie c] /\ authHeader a = None /\
                sessionCookie a = Some c)) /\
    (made = [] -> store w' = store w).
Proof.
  intros Hnew.
  destruct (isVerified_paths a w (new_extracted r a Hnew))
    as (v & w' & Hrun & Hr & [(Hc & Hs & _)|[(Ha & Hc & _)|(c & Hn & Hsc & Hc & _)]]).
  - exists v, w', []. rewrite app_nil_r. repeat split; auto.
  - exists v, w', [InsertVerified true].
    split; [exact Hrun|]. split; [exact Hc|]. split; [exact Hr|].
    split; [right; left; auto|discriminate].
  - exists v, w', [SelectEqCookie c].
    split; [exact Hrun|]. split; [exact Hc|]. split; [exact Hr|].
    split; [right; right; exists c; auto|discriminate].
Qed.

(** The reason of a verdict is one of seven fixed texts, and the verdict is
    positive exactly for the two 'verified' ones: no text that comes from the
    store or from the decoder reaches the verdict. *)
Theorem reason_is_fixed (r : Request) (a : Auth.t) (w : World S) :
  Auth.new (Object r) = Normal a ->
  exists v w',
    isVerified a w = (Normal v, w') /\
    In (reason v)
       ["Invalid Authorization pattern"; "Password does not match";
        "Authorization header verified";
        "No Authorization header or session cookie found";
        "Session cookie not found"; "Session cookie is not verified";
        "Session cookie verified"] /\
    (verified v = true <->
     reason v = "Authorization header verified" \/ reason v = "Session cookie verified").
Proof.
  intros Hnew.
  destruct (isVerified_paths a w (new_extracted r a Hnew))
    as (v & w' & Hrun & _ & [(_ & _ & Hv & _ & Hin)|[(_ & _ & _ & ->)|(c & _ & _ & _ & _ & ->)]]);
    eexists _, w'; (split; [exact Hrun|]).
  - split; [cbn in *; tauto|]. rewrite Hv. split; [discriminate|].
    cbn in Hin. intros [He|He]; rewrite He in Hin; intuition discriminate.
  - cbn. split; [tauto|]. split; auto.
  - destruct (classify (fst (run_select c (store w)))) as [| |row]; cbn;
      [| |destruct (is_verified row); cbn]; (split; [tauto|]);
      (split; [discriminate || auto|intros [He|He]; discriminate || reflexivity]).
Qed.

(** On the token path the console tells a failed lookup from a missing
    record: a rejected query, an error answer or an answer without data adds
    one line that carries the store's error, and nothing is written
    otherwise.  The verdict is the same 'Session cookie not found' in both
    cases. *)
Theorem failed_lookup_logged (r : Request) (a : Auth.t) (c : string) (w : World S) :
  Auth.new (Object r) = Normal a ->
  authHeader a = None -> sessionCookie a = Some c ->
  let answer := fst (run_select c (store w)) in
  (classify answer = LookupFailed ->
   fst (isVerified a w) = Normal (mkVerdict false "Session cookie not found" None) /\
   exists entry, console (snd (isVerified a w)) = console w ++ [entry] /\
     (forall e, answer = Throw e -> snd entry = LogExn e) /\
     (forall err d, answer = Normal (mkDbResponse (Some err) d) ->
                    snd entry = LogDbError err)) /\
  (classify answer <> LookupFailed -> console (snd (isVerified a w)) = console w).
Proof.
  intros Hnew Hh Hc answer.
  pose proof (proj2 (new_extracted r a Hnew) c Hc) as Ht.
  pose proof (isVerified_token_console a c w Hh Hc Ht) as Hcons.
  destruct (isVerified_token a c w Hh Hc Ht) as (w' & Hrun & _).
  rewrite Hrun in *. cbn [fst snd] in *. fold answer in Hcons |- *.
  rewrite Hcons.
  destruct answer as [[[err|] [[|row rows]|]]|e]; cbn; split;
    try discriminate; try congruence; try (intros _; apply app_nil_r);
    intros _; (split; [reflexivity|]); eexists; (split; [reflexivity|]);
    split; intros; cbn; congruence.
Qed.

(** Mint, then verify.  When a matching credential makes the store mint a
    row with a non-empty token, and the store finds that row verified
    afterwards, a later request that carries the token as its cookie and no
    header is verified by one lookup. *)
Theorem mint_then_verify (r1 r2 : Request) (a1 : Auth.t) (row : Row) (rest : list Row)
    (s1 : S) (w : World S) :
  Auth.new (Object r1) = Normal a1 -> case_a a1 ->
  run_insert true (store w) = (Normal (mkDbResponse None (Some (row :: rest))), s1) ->
  cookie_string row <> EmptyString ->
  token_valid (cookie_string row) s1 ->
  headers r2 ≫= (.!! "authorization") = None ->
  cookies r2 ≫= (.!! "__Host-session") = Some (cookie_string row) ->
  exists w1 a2 w2,
    isVerified a1 w
    = (Normal (mkVerdict true "Authorization header verified" (Some (cookie_string row))),
       w1) /\
    Auth.new (Object r2) = Normal a2 /\
    isVerified a2 w1 = (Normal (mkVerdict true "Session cookie verified" None), w2) /\
    calls w2 = calls w ++ [InsertVerified true; SelectEqCookie (cookie_string row)].
Proof.
  intros Hnew1 Ha Hins Hne Hvalid Hh2 Hc2.
  destruct Ha as (h & Hh & Hm).
  assert (Hp : startsWith "Basic " h = true).
  { destruct Hm as (rest' & secret & -> & _). apply startsWith_append. }
  destruct (isVerified_credential a1 h w Hh Hp)
    as (v & w1 & Hrun1 & _ & [(_ & -> & Hc1 & Hs1)|(Hna & _)]).
  2:{ destruct Hna. exists h. auto. }
  rewrite Hins in Hrun1, Hs1. cbn in Hrun1, Hs1.
  set (a2 := mkAuth r2 (or_null (headers r2 ≫= (.!! "authorization")))
               (or_null (cookies r2 ≫= (.!! "__Host-session")))).
  assert (Hh2' : authHeader a2 = None) by (cbn; now rewrite Hh2).
  assert (Ht : truthy (cookie_string row) = true) by now apply truthy_nonempty.
  assert (Hc2' : sessionCookie a2 = Some (cookie_string row)).
  { cbn. rewrite Hc2. cbn. now rewrite Ht. }
  destruct (isVerified_token a2 _ w1 Hh2' Hc2' Ht) as (w2 & Hrun2 & _ & Hcalls2 & _).
  exists w1, a2, w2. split; [exact Hrun1|]. split; [reflexivity|]. split.
  - rewrite Hrun2, Hs1. destruct Hvalid as (row' & -> & Hrow). cbn. now rewrite Hrow.
  - rewrite Hcalls2, Hc1, <- app_assoc. reflexivity.
Qed.

End MoreRuns.

End VerifierFacts.

(** ** More about the dispatcher *)

Module DispatchFacts.

Import Auth AuthSpec ApiResponse JsFacts AuthFacts ApiResponseFacts.

Section MoreRuns.
Context {S : Type} {db : CredentialStore S} {proc : Process}.

(** The world in which [send] invokes the success callback. *)
Lemma respond_verified (self : ApiResponse.t) (v : Verdict) (w : World S) :
  verified v = true ->
  respond self v w
  = (await (onSuccess self (req self) (newCookie v)) ;;; ret Settles)
      (match newCookie v with
       | Some c => if truthy c then with_header "Set-Cookie" (setCookie c) w else w
       | None => w
       end).
Proof.
  intros Hv. unfold respond. rewrite Hv.
  destruct (newCookie v) as [c|]; [|reflexivity].
  now destruct (truthy c).
Qed.

Lemma send_body (self : ApiResponse.t) (w : World S) (v : Verdict) (w1 : World S) :
  verdict self w = (Normal v, w1) ->
  send self w
  = await (try_catch (respond self v)
             (fun e =>
                console_error "Auth verification error:" (LogExn e) ;;;
                onError self "Internal authentication error")) w1.
Proof.
  intros Hv. unfold send, await. unfold bind at 1 3.
  unfold try_catch. unfold bind at 1 3. now rewrite Hv.
Qed.


(** A dispatcher that the constructor accepted for a request that is not
    an object never reaches the store or the success callback: [send] logs
    the constructor's error and calls the error callback with 'Internal
    authentication error'. *)
Theorem non_object_request_reported (b res : bool)
    (s : ReqArg -> option string -> M S Returned) (e : string -> M S Returned)
    (d : ApiResponse.t) (w : World S) :
  Dispatch.new (NotObject b) res (Some s) (Some e) = Normal d ->
  b = true /\ res = true /\
  send d w
  = await (e "Internal authentication error")
      (logged "Auth verification error:"
         (LogExn (Error "Auth constructor requires a valid request object")) w).
Proof.
  unfold Dispatch.new. cbn [Dispatch.req_truthy].
  destruct b, res; try discriminate. intros [= <-].
  split; [reflexivity|]. split; [reflexivity|].
  unfold send, await. unfold bind at 1 3.
  now rewrite (try_catch_throw _ _ _ w _ w
                 (verdict_not_object (mkApiResponse (NotObject true) s e) true w eq_refl)).
Qed.

(** A rejected request.  The error callback is called with the verdict's
    reason on the response as the verifier left it, and when it returns,
    [send] settles as its result does.  When it throws, [send] calls it a
    second time, with 'Internal authentication error'. *)
Theorem send_rejected (self : ApiResponse.t) (w : World S) (v : Verdict) (w1 : World S) :
  verdict self w = (Normal v, w1) -> verified v = false ->
  response w1 = response w /\
  (forall w2, onError self (reason v) w1 = (Normal Settles, w2) ->
     send self w = (Normal tt, w2)) /\
  (forall e w2, onError self (reason v) w1 = (Normal (Rejects e), w2) ->
     send self w = (Throw e, w2)) /\
  (forall e w2, onError self (reason v) w1 = (Throw e, w2) ->
     send self w
     = await (onError self "Internal authentication error")
         (logged "Auth verification error:" (LogExn e) w2)).
Proof.
  intros Hverdict Hv. split.
  - unfold verdict, bind, lift in Hverdict.
    destruct (req self) as [b|r]; [discriminate|]. cbn in Hverdict.
    destruct (isVerified_run (S := S) _ w (new_extracted r _ eq_refl))
      as (v' & w' & _ & Hrun & _ & Hr & _).
    rewrite Hrun in Hverdict. now injection Hverdict as _ <-.
  - rewrite (send_body self w v w1 Hverdict).
    split; [|split]; intros *; intros Hcb;
      unfold await at 1, try_catch, bind;
      rewrite (respond_rejected self v w1 Hv); cbv beta;
      now rewrite Hcb.
Qed.

(** A verified request.  The success callback runs on the response that
    carries the new cookie, if one was minted.  When it returns, [send]
    returns; when it throws or its promise rejects, [send] logs the
    exception and calls the error callback with 'Internal authentication
    error', the cookie header still set. *)
Theorem send_verified (self : ApiResponse.t) (w : World S) (v : Verdict) (w1 : World S) :
  verdict self w = (Normal v, w1) -> verified v = true ->
  let ready := match newCookie v with
               | Some c => if truthy c then with_header "Set-Cookie" (setCookie c) w1 else w1
               | None => w1
               end in
  (forall w2, onSuccess self (req self) (newCookie v) ready = (Normal Settles, w2) ->
     send self w = (Normal tt, w2)) /\
  (forall e w2,
     onSuccess self (req self) (newCookie v) ready = (Throw e, w2) \/
     onSuccess self (req self) (newCookie v) ready = (Normal (Rejects e), w2) ->
     send self w
     = await (onError self "Internal authentication error")
         (logged "Auth verification error:" (LogExn e) w2)).
Proof.
  intros Hverdict Hv ready. subst ready.
  rewrite (send_body self w v w1 Hverdict).
  split; intros *; intros Hcb;
    unfold await at 1, try_catch, bind;
    rewrite (respond_verified self v w1 Hv);
    unfold await at 1, bind, ret, throw; cbv beta.
  - now rewrite Hcb.
  - now destruct Hcb as [Hcb|Hcb]; rewrite Hcb.
Qed.



End MoreRuns.

End DispatchFacts.

(** ** The inventory query *)

Module InventoryFacts.

Import Auth AuthSpec Inventory.

Lemma map_id_ok (items : list Json) :
  Forall (fun item => item <> JNull) items -> map_id items = Normal (map id_of items).
Proof.
  induction 1 as [|item items Hitem _ IH]; [reflexivity|].
  cbn. rewrite IH. destruct item; try reflexivity. congruence.
Qed.

Lemma map_id_null (items : list Json) :
  In JNull items -> exists e, map_id items = Throw e.
Proof.
  induction items as [|item items IH]; [intros []|].
  intros [->|Hin]; [eexists; reflexivity|].
  destruct (IH Hin) as [e He]. cbn. rewrite He.
  destruct (item_id item); eexists; reflexivity.
Qed.

Lemma map_id_length (items : list Json) (ids : list (option Json)) :
  map_id items = Normal ids -> ids = map id_of items /\ ~ In JNull items.
Proof.
  revert ids. induction items as [|item items IH]; intros ids.
  - intros [= <-]. split; [reflexivity|intros []].
  - cbn. destruct (item_id item) as [i|e] eqn:Hi; [|discriminate].
    destruct (map_id items) as [ids'|e]; [|discriminate].
    intros [= <-]. destruct (IH ids' eq_refl) as [-> Hnot].
    destruct item; cbn in Hi; try discriminate; injection Hi as <-;
      (split; [reflexivity|]); intros [Heq|Hin]; try discriminate; auto.
Qed.

Section InventoryRuns.
Context {S : Type} {rt : Runtime S}.

(** When [items] holds the text of a JSON array without null elements, the
    stored procedure is called with the [id] of every element, in order
    ([undefined] for an element without one), and nothing is logged. *)
Theorem getInventoryData_ids (r : Request) (q : gmap string string) (text : string)
    (items : list Json) (w : World S) :
  query r = Some q -> q !! "items" = Some text -> text <> EmptyString ->
  JSON_parse text = Normal (JArray items) ->
  Forall (fun item => item <> JNull) items ->
  getInventoryData (Object r) w = rpc_get_nested_inventory (map id_of items) w.
Proof.
  intros Hq Hitems Hne Hparse Hall.
  apply JsFacts.truthy_nonempty in Hne.
  unfold getInventoryData, query_items, bind, try_catch, lift.
  rewrite Hq, Hitems. cbn [to_boolean default]. rewrite Hne. cbv beta. unfold id.
  rewrite Hparse. cbn [items_map_id]. now rewrite (map_id_ok items Hall).
Qed.

(** All or nothing.  Whatever the query holds, the stored procedure is
    called once, on the store as it was, and its id list is either empty or
    the ids of all elements of the parsed array: a text that does not
    parse, a value that is not an array, or a single null element leaves
    the list empty. *)
Theorem getInventoryData_all_or_nothing (r : Request) (q : gmap string string)
    (w : World S) :
  query r = Some q ->
  exists ids w1,
    getInventoryData (Object r) w = rpc_get_nested_inventory ids w1 /\
    store w1 = store w /\ response w1 = response w /\ calls w1 = calls w /\
    (ids = [] \/
     exists text items,
       q !! "items" = Some text /\ JSON_parse text = Normal (JArray items) /\
       ~ In JNull items /\ ids = map id_of items /\ w1 = w).
Proof.
  intros Hq.
  unfold getInventoryData, query_items, bind, try_catch, lift, console_error, ret.
  rewrite Hq.
  destruct (q !! "items") as [text|] eqn:Hitems; cbn [to_boolean default].
  2:{ exists [], w. repeat split. now left. }
  destruct (truthy text).
  2:{ exists [], w. repeat split. now left. }
  cbv beta. unfold id.
  destruct (JSON_parse text) as [parsed|e] eqn:Hparse.
  2:{ eexists [], _. repeat split. now left. }
  destruct (items_map_id parsed) as [ids|e] eqn:Hmap.
  2:{ eexists [], _. repeat split. now left. }
  exists ids, w. repeat split. right.
  destruct parsed; try discriminate. cbn in Hmap.
  destruct (map_id_length _ _ Hmap) as [-> Hnot].
  exists text, items. auto.
Qed.

End InventoryRuns.

End InventoryFacts.

(** ** The further theorems at work on the scenario store *)

Module MoreRuns.

Import Auth AuthSpec ApiResponse Scenario Fixtures JsText Cookies Inventory.

Lemma two_spaces_blank (c : string) : Some "  " = Some c -> blank c = true.
Proof. now intros [= <-]. Qed.

Lemma checkCookieState_requires_cookie_spaces :
  (forall c, Some "  " = Some c -> blank c = true) /\
  checkCookieState (Some "  ") (world table)
  = (Normal (Result.mk false None None "cookie argument is required" true), world table).
Proof.
  split; [exact two_spaces_blank|].
  apply (CookiesFacts.checkCookieState_requires_cookie (Some "  ") (world table)).
  exact two_spaces_blank.
Defined.

Lemma checkCookieState_result_abc123 :
  blank "abc123" = false /\
  exists res w',
    checkCookieState (Some "abc123") (world table) = (Normal res, w') /\
    calls w' = calls (world table) ++ [SelectEqCookie "abc123"] /\
    store w' = snd (run_select "abc123" (store (world table))) /\
    response w' = response (world table) /\
    match classify (fst (run_select "abc123" (store (world table)))) with
    | Record row =>
        res = Result.mk true (Some (record_id row)) (Some (is_verified row)) EmptyString false
        /\ console w' = console (world table)
    | NoRecord =>
        res = Result.mk false None None "cookie not found" false /\
        console w' = console (world table)
    | LookupFailed =>
        Result.success res = false /\ Result.error res = true /\
        Result.id res = None /\ Result.verified res = None /\
        exists entry, console w' = console (world table) ++ [entry]
    end.
Proof.
  split; [reflexivity|].
  apply (CookiesFacts.checkCookieState_result "abc123" (world table)). reflexivity.
Defined.

Lemma checkCookieState_agrees_abc123 :
  (sessionCookie cookie_auth = Some "abc123" /\ blank "abc123" = false) /\
  exists chk w1 res w2,
    isCookieVerified cookie_auth (world table) = (Normal chk, w1) /\
    checkCookieState (Some "abc123") (world table) = (Normal res, w2) /\
    store w1 = store w2 /\ calls w1 = calls w2 /\
    Result.success res = found chk /\
    Result.id res = check_id chk /\
    Result.verified res = (if found chk then Some (check_verified chk) else None).
Proof.
  split; [split; reflexivity|].
  apply (CookiesFacts.checkCookieState_agrees cookie_auth "abc123" (world table));
    reflexivity.
Defined.

Lemma blank_cookie_divergence_space :
  (sessionCookie space_auth = Some " " /\ truthy " " = true /\ blank " " = true) /\
  (exists chk w1,
     isCookieVerified space_auth (world table) = (Normal chk, w1) /\
     calls w1 = calls (world table) ++ [SelectEqCookie " "]) /\
  checkCookieState (Some " ") (world table)
  = (Normal (Result.mk false None None "cookie argument is required" true), world table).
Proof.
  split; [repeat split|].
  apply (CookiesFacts.blank_cookie_divergence space_auth " " (world table));
    reflexivity.
Defined.

Example createCookie_default_is_unverified :
  createCookie Undefined (world table)
  = (Normal (Result.mk true (Some "9") (Some false) "tok-9" false),
     mkWorld (mkTable [abc123; pending; mkRow "9" "tok-9" false] Up []) Scenario.blank
       [InsertVerified false] []).
Proof. vm_compute. reflexivity. Qed.

Example createCookie_on_erroring_store :
  fst (createCookie (Boolean true) (world erroring))
  = Normal (Result.mk false None None
              "internal error fetching the database: connection refused" true).
Proof. vm_compute. reflexivity. Qed.

Lemma no_credentials_rejected_anonymous :
  ((forall h, headers anonymous ≫= (.!! "authorization") = Some h -> h = EmptyString) /\
   (forall c, cookies anonymous ≫= (.!! "__Host-session") = Some c -> c = EmptyString)) /\
  exists a,
    Auth.new (Object anonymous) = Normal a /\
    isVerified a (world table)
    = (Normal (mkVerdict false "No Authorization header or session cookie found" None),
       world table).
Proof.
  assert (Hh : forall h, headers anonymous ≫= (.!! "authorization") = Some h ->
                         h = EmptyString) by (intros h Hh; vm_compute in Hh; discriminate).
  assert (Hc : forall c, cookies anonymous ≫= (.!! "__Host-session") = Some c ->
                         c = EmptyString) by (intros c Hc; vm_compute in Hc; discriminate).
  split; [split; assumption|].
  apply (VerifierFacts.no_credentials_rejected anonymous (world table)); assumption.
Defined.

Lemma header_shadows_cookie_both :
  (Auth.new (Object with_both) = Normal both_auth /\
   authHeader both_auth = Some "Basic d3Jvbmc=") /\
  exists v w' made,
    isVerified both_auth (world table) = (Normal v, w') /\
    calls w' = calls (world table) ++ made /\
    (forall c, ~ In (SelectEqCookie c) made) /\
    (~ case_a both_auth ->
     verified v = false /\ made = [] /\ store w' = store (world table)).
Proof.
  split; [split; reflexivity|].
  apply (VerifierFacts.header_shadows_cookie with_both both_auth "Basic d3Jvbmc=");
    reflexivity.
Defined.

Lemma one_query_at_most_secret :
  Auth.new (Object with_secret) = Normal secret_auth /\
  exists v w' made,
    isVerified secret_auth (world table) = (Normal v, w') /\
    calls w' = calls (world table) ++ made /\
    response w' = response (world table) /\
    (made = [] \/
     (made = [InsertVerified true] /\ case_a secret_auth) \/
     (exists c, made = [SelectEqCookie c] /\ authHeader secret_auth = None /\
                sessionCookie secret_auth = Some c)) /\
    (made = [] -> store w' = store (world table)).
Proof.
  split; [reflexivity|].
  apply (VerifierFacts.one_query_at_most with_secret). reflexivity.
Defined.

Lemma reason_is_fixed_erroring :
  Auth.new (Object with_cookie) = Normal cookie_auth /\
  exists v w',
    isVerified cookie_auth (world erroring) = (Normal v, w') /\
    In (reason v)
       ["Invalid Authorization pattern"; "Password does not match";
        "Authorization header verified";
        "No Authorization header or session cookie found";
        "Session cookie not found"; "Session cookie is not verified";
        "Session cookie verified"] /\
    (verified v = true <->
     reason v = "Authorization header verified" \/ reason v = "Session cookie verified").
Proof.
  split; [reflexivity|].
  apply (VerifierFacts.reason_is_fixed with_cookie). reflexivity.
Defined.

Lemma failed_lookup_logged_erroring :
  (Auth.new (Object with_cookie) = Normal cookie_auth /\
   authHeader cookie_auth = None /\ sessionCookie cookie_auth = Some "abc123" /\
   classify (fst (run_select "abc123" (store (world erroring)))) = LookupFailed) /\
  fst (isVerified cookie_auth (world erroring))
  = Normal (mkVerdict false "Session cookie not found" None) /\
  exists entry,
    console (snd (isVerified cookie_auth (world erroring)))
    = console (world erroring) ++ [entry] /\
    (forall e, fst (run_select "abc123" (store (world erroring))) = Throw e ->
               snd entry = LogExn e) /\
    (forall err d,
        fst (run_select "abc123" (store (world erroring)))
        = Normal (mkDbResponse (Some err) d) ->
        snd entry = LogDbError err).
Proof.
  split; [repeat split|].
  apply (VerifierFacts.failed_lookup_logged with_cookie cookie_auth "abc123"
           (world erroring) eq_refl eq_refl eq_refl).
  reflexivity.
Defined.

Lemma tok9_valid : token_valid (cookie_string tok9) minted.
Proof. exists tok9. split; reflexivity. Qed.

Lemma mint_then_verify_tok9 :
  (Auth.new (Object with_secret) = Normal secret_auth /\
   run_insert true (store (world table))
   = (Normal (mkDbResponse None (Some [tok9])), minted) /\
   cookie_string tok9 <> EmptyString /\
   headers with_tok9 ≫= (.!! "authorization") = None /\
   cookies with_tok9 ≫= (.!! "__Host-session") = Some (cookie_string tok9)) /\
  exists w1 a2 w2,
    isVerified secret_auth (world table)
    = (Normal (mkVerdict true "Authorization header verified" (Some (cookie_string tok9))),
       w1) /\
    Auth.new (Object with_tok9) = Normal a2 /\
    isVerified a2 w1 = (Normal (mkVerdict true "Session cookie verified" None), w2) /\
    calls w2
    = calls (world table) ++ [InsertVerified true; SelectEqCookie (cookie_string tok9)].
Proof.
  split; [repeat split; discriminate|].
  apply (VerifierFacts.mint_then_verify with_secret with_tok9 secret_auth tok9 []
           minted (world table)); try reflexivity.
  - exists "Basic Y29ycmVjdC1zZWNyZXQ=". split; [reflexivity|].
    exists "Y29ycmVjdC1zZWNyZXQ=", "correct-secret". repeat split.
  - discriminate.
  - exact tok9_valid.
Defined.

Lemma non_object_request_reported_true :
  Dispatch.new (NotObject true) true (Some sendOk) (Some Data.handleError)
  = Normal (dispatcher (NotObject true)) /\
  true = true /\ true = true /\
  send (dispatcher (NotObject true)) (world table)
  = await (Data.handleError "Internal authentication error")
      (logged "Auth verification error:"
         (LogExn (Error "Auth constructor requires a valid request object"))
         (world table)).
Proof.
  split; [reflexivity|].
  apply (DispatchFacts.non_object_request_reported true true sendOk Data.handleError).
  reflexivity.
Defined.

Lemma send_rejected_anonymous :
  (verdict (failing (Object anonymous)) (world table)
   = (Normal (mkVerdict false "No Authorization header or session cookie found" None),
      world table) /\
   onError (failing (Object anonymous))
     "No Authorization header or session cookie found" (world table)
   = (Throw (Error "response already sent"), world table)) /\
  send (failing (Object anonymous)) (world table)
  = await (onError (failing (Object anonymous)) "Internal authentication error")
      (logged "Auth verification error:" (LogExn (Error "response already sent"))
         (world table)).
Proof.
  split; [split; reflexivity|].
  apply (DispatchFacts.send_rejected (failing (Object anonymous)) (world table)
           (mkVerdict false "No Authorization header or session cookie found" None)
           (world table) eq_refl eq_refl).
  reflexivity.
Defined.

Lemma send_verified_throwing :
  (verdict (mkApiResponse (Object with_secret) throwing Data.handleError) (world table)
   = (Normal (mkVerdict true "Authorization header verified" (Some "tok-9")),
      mkWorld minted Scenario.blank [InsertVerified true] []) /\
   throwing (Object with_secret) (Some "tok-9")
     (with_header "Set-Cookie" (setCookie "tok-9")
        (mkWorld minted Scenario.blank [InsertVerified true] []))
   = (Throw (Error "inventory unavailable"),
      with_header "Set-Cookie" (setCookie "tok-9")
        (mkWorld minted Scenario.blank [InsertVerified true] []))) /\
  send (mkApiResponse (Object with_secret) throwing Data.handleError) (world table)
  = await (Data.handleError "Internal authentication error")
      (logged "Auth verification error:" (LogExn (Error "inventory unavailable"))
         (with_header "Set-Cookie" (setCookie "tok-9")
            (mkWorld minted Scenario.blank [InsertVerified true] []))).
Proof.
  split; [split; reflexivity|].
  apply (DispatchFacts.send_verified
           (mkApiResponse (Object with_secret) throwing Data.handleError) (world table)
           (mkVerdict true "Authorization header verified" (Some "tok-9"))
           (mkWorld minted Scenario.blank [InsertVerified true] []));
    [vm_compute; reflexivity|reflexivity|left; reflexivity].
Defined.

Example verified_but_401_keeps_cookie :
  let w := snd (send (mkApiResponse (Object with_secret) throwing Data.handleError)
                  (world table)) in
  res_status (response w) = Some 401 /\
  res_body (response w)
  = Some [("error", "Unauthorized"); ("reason", "Internal authentication error")] /\
  res_headers (response w) !! "Set-Cookie"
  = Some "__Host-session=tok-9; Max-Age=2592000; HttpOnly; Secure; Path=/".
Proof. vm_compute. auto. Qed.



Lemma no_null_items : Forall (fun item => item <> JNull) [JNumber "1"; JObject ∅].
Proof. repeat constructor; discriminate. Qed.

Lemma getInventoryData_ids_known :
  (query (Runtime := items_query "[1,{}]") anonymous = Some {[ "items" := "[1,{}]" ]} /\
   ({[ "items" := "[1,{}]" ]} : gmap string string) !! "items" = Some "[1,{}]" /\
   "[1,{}]" <> EmptyString /\
   JSON_parse (Runtime := items_query "[1,{}]") "[1,{}]"
   = Normal (JArray [JNumber "1"; JObject ∅]) /\
   Forall (fun item => item <> JNull) [JNumber "1"; JObject ∅]) /\
  getInventoryData (rt := items_query "[1,{}]") (Object anonymous) (world table)
  = rpc_get_nested_inventory (rt := items_query "[1,{}]")
      (map id_of [JNumber "1"; JObject ∅]) (world table).
Proof.
  split; [repeat split; (discriminate || exact no_null_items)|].
  apply (InventoryFacts.getInventoryData_ids (rt := items_query "[1,{}]") anonymous
           {[ "items" := "[1,{}]" ]} "[1,{}]" [JNumber "1"; JObject ∅] (world table));
    try reflexivity; (discriminate || exact no_null_items).
Defined.

Lemma getInventoryData_all_or_nothing_null :
  query (Runtime := items_query "[1,null]") anonymous = Some {[ "items" := "[1,null]" ]} /\
  exists ids w1,
    getInventoryData (rt := items_query "[1,null]") (Object anonymous) (world table)
    = rpc_get_nested_inventory (rt := items_query "[1,null]") ids w1 /\
    store w1 = store (world table) /\ response w1 = response (world table) /\
    calls w1 = calls (world table) /\
    (ids = [] \/
     exists text items,
       ({[ "items" := "[1,null]" ]} : gmap string string) !! "items" = Some text /\
       JSON_parse (Runtime := items_query "[1,null]") text = Normal (JArray items) /\
       ~ In JNull items /\ ids = map id_of items /\ w1 = world table).
Proof.
  split; [reflexivity|].
  apply (InventoryFacts.getInventoryData_all_or_nothing (rt := items_query "[1,null]")
           anonymous {[ "items" := "[1,null]" ]} (world table)).
  reflexivity.
Defined.

Example null_item_empties_the_ids :
  getInventoryData (rt := items_query "[1,null]") (Object anonymous) (world table)
  = (Normal (mkRpcResponse None (Some (JArray []))),
     mkWorld table Scenario.blank []
       [("Invalid items query format:",
         LogExn (TypeError "Cannot read properties of null (reading 'id')"))]).
Proof. vm_compute. reflexivity. Qed.

End MoreRuns.
